(** * whisper_gui.py: the chunked transcription pipeline

    A shallow embedding of [format_time], [save_recorded_audio],
    [split_audio] and the generator [transcribe] of [whisper_gui.py], and
    the properties of the pipeline proved about it.

    Conventions of the embedding.
    - A Python [str] is a [string] holding its UTF-8 bytes; comparing two
      such strings byte by byte orders them as Python orders the code points.
    - A Python [float] is a rational ([Q]); every float operation of the
      source is an exact operation followed by the rounding [fl], about which
      only what a theorem states is assumed.
    - The collaborators (clock, temporary directories, the splitting tool,
      the directory listing, the speech engine, [pathlib]) are the fields of
      the class [World]; the program is written over an arbitrary world.
    - A run of the generator is the list of its effects in program order,
      with how it ended: exhausted, or by an exception it lets through. The
      calls whose exceptions the program does not catch (the splitting
      command, the engine, the writing of the transcript) end the run with
      the exception the world gives them; the one it catches (the failure
      to save a recording) becomes the failure event. *)

From Stdlib Require Import ZArith QArith Qround List Bool Lia Permutation Sorted.
From Stdlib Require Import Strings.Ascii Strings.String Numbers.DecimalString.
From Stdlib Require Import Numbers.DecimalPos.
Import ListNotations.

Open Scope string_scope.
Open Scope Z_scope.

(** ** Python strings *)

Module PyStr.

(** The line feed of ["\n"]. *)
Definition newline : string := String (ascii_of_nat 10) EmptyString.

(** [sep.join(ls)] *)
Definition join (sep : string) (ls : list string) : string :=
  String.concat sep ls.

(** [str(n)] and [%d] for an integer. *)
Definition str_int (n : Z) : string :=
  NilZero.string_of_int (Z.to_int n).

(** [%0<width>d]: the decimal digits of [n], zero-padded on the left up to
    [width] characters, the sign first; never truncated. *)
Fixpoint zeros (k : nat) : string :=
  match k with
  | O => EmptyString
  | S k' => String "0" (zeros k')
  end.

Definition zero_padded (width : nat) (n : Z) : string :=
  if n <? 0
  then let d := str_int (- n) in
       String "-" (zeros (width - 1 - String.length d) ++ d)
  else let d := str_int n in
       zeros (width - String.length d) ++ d.

(** [s.endswith(suffix)] *)
Fixpoint endswith (s suffix : string) : bool :=
  if String.eqb s suffix then true
  else match s with
       | EmptyString => false
       | String _ s' => endswith s' suffix
       end.

(** [s.startswith(p)], returning what follows the prefix. *)
Fixpoint strip_prefix (p s : string) : option string :=
  match p, s with
  | EmptyString, _ => Some s
  | String a p', String b s' =>
      if Ascii.eqb a b then strip_prefix p' s' else None
  | String _ _, EmptyString => None
  end.

Definition bytes (l : list nat) : string :=
  string_of_list_ascii (map ascii_of_nat l).

(** The UTF-8 encodings of the characters for which [str.isspace] holds:
    U+0009..U+000D, U+001C..U+0020, U+0085, U+00A0, U+1680,
    U+2000..U+200A, U+2028, U+2029, U+202F, U+205F, U+3000. *)
Definition whitespace : list string :=
  map bytes
    (List.app
       [[9]; [10]; [11]; [12]; [13]; [28]; [29]; [30]; [31]; [32];
        [194; 133]; [194; 160]; [225; 154; 128]]
       (List.app
          (map (fun b => [226; 128; b]) (seq 128 11))
          [[226; 128; 168]; [226; 128; 169]; [226; 128; 175];
           [226; 129; 159]; [227; 128; 128]]))%nat.

(** What is left of [s] after one leading whitespace character. *)
Fixpoint drop_space (ws : list string) (s : string) : option string :=
  match ws with
  | [] => None
  | w :: ws' =>
      match strip_prefix w s with
      | Some rest => Some rest
      | None => drop_space ws' s
      end
  end.

(** [s.lstrip()]; the fuel is the length of [s]. *)
Fixpoint lstrip_fuel (fuel : nat) (ws : list string) (s : string) : string :=
  match fuel with
  | O => s
  | S fuel' =>
      match drop_space ws s with
      | Some rest => lstrip_fuel fuel' ws rest
      | None => s
      end
  end.

Definition lstrip (s : string) : string :=
  lstrip_fuel (String.length s) whitespace s.

Definition reverse (s : string) : string :=
  string_of_list_ascii (rev (list_ascii_of_string s)).

(** [s.rstrip()]: the same on the reversed bytes, a whitespace character
    being recognised by its reversed encoding. *)
Definition rstrip (s : string) : string :=
  reverse (lstrip_fuel (String.length s) (map reverse whitespace) (reverse s)).

(** [s.strip()] *)
Definition strip (s : string) : string := rstrip (lstrip s).

(** [l[-n:]] for [n > 0]: the last [n] items, all of them when there are
    fewer. *)
Definition last_items {A : Type} (n : nat) (l : list A) : list A :=
  skipn (List.length l - n) l.

End PyStr.

(** Whether a string begins, and whether it ends, with a character for
    which [str.isspace] holds. *)
Definition leading_space (s : string) : bool :=
  existsb (fun w => String.prefix w s) PyStr.whitespace.

Definition trailing_space (s : string) : bool :=
  existsb (fun w => PyStr.endswith s w) PyStr.whitespace.

(** Whether a string is made of such characters only. *)
Fixpoint flatten (l : list string) : string :=
  match l with
  | [] => EmptyString
  | w :: l' => w ++ flatten l'
  end.

Definition only_space (s : string) : Prop :=
  exists l, Forall (fun w => In w PyStr.whitespace) l /\ s = flatten l.

(** ** [datetime.timedelta] and [format_time] *)

(** [int(x)] of a float: the fraction is dropped, rounding towards zero. *)
Definition int_of_float (x : Q) : Z :=
  Z.quot (Qnum x) (Zpos (Qden x)).

(** [timedelta(seconds=n)] takes an integer [n] whose day count is at most
    999999999 in magnitude, and raises [OverflowError] for any other. *)
Definition timedelta_accepts (n : Z) : Prop :=
  -999999999 <= n / 86400 <= 999999999.

(** [str(timedelta(seconds=n))] for an integer [n] that [timedelta]
    accepts: the constructor normalises to [days] and
    [0 <= seconds < 86400], and [__str__] prints ["H:MM:SS"], preceded by
    ["D day, "] or ["D days, "] when [days] is not zero. The clock readings
    and the segment times of a run are taken to lie within that range. *)
Definition str_timedelta (n : Z) : string :=
  let days := n / 86400 in
  let seconds := n mod 86400 in
  let mm := seconds / 60 in
  let ss := seconds mod 60 in
  let hh := mm / 60 in
  let mm := mm mod 60 in
  let s := PyStr.str_int hh ++ ":" ++ PyStr.zero_padded 2 mm
           ++ ":" ++ PyStr.zero_padded 2 ss in
  if days =? 0 then s
  else PyStr.str_int days
       ++ (if Z.abs days =? 1 then " day, " else " days, ") ++ s.

Definition format_time (seconds : Q) : string :=
  let seconds := int_of_float seconds in
  str_timedelta seconds.

(** ** The data of a run *)

(** One entry of [result["segments"]]: the keys ["start"], ["end"] and
    ["text"] of the engine's segment dictionary. *)
Record Segment := mkSegment {
  seg_start : Q;
  seg_end : Q;
  seg_text : string
}.

(** What [model.transcribe(chunk, language=language)] does: it raises, or
    returns a dictionary that may hold a ["segments"] entry. *)
Inductive TranscribeResult :=
| engine_raises (e : string)
| engine_returns (segments : option (list Segment)).

(** [audio_input]: the tuple [(sample_rate, ndarray)] of a recording, whose
    array may be [None], or the path of a file. *)
Inductive AudioInput :=
| Recorded (sr : Z) (audio_np : option (list Z))
| FilePath (path : string).

(** The tuple [(status, transcript, file)] the generator yields. *)
Definition ProgressEvent : Type := string * string * option string.

Definition status (ev : ProgressEvent) : string := fst (fst ev).
Definition previewText (ev : ProgressEvent) : string := snd (fst ev).
Definition artifactPath (ev : ProgressEvent) : option string := snd ev.

(** The three [yield] statements of [transcribe]: in the [except] branch
    (line 50), at the end of a loop iteration (line 78), after the loop
    (line 86). *)
Inductive YieldSite := input_failure | chunk_done | run_done.

(** What a run does to the world outside, in program order. *)
Inductive Effect :=
| load_model (model_size : string)
| makedirs (path : string)
| wav_write (path : string) (sr : Z) (data : list Z)
| subprocess_run (command : list string)
| engine_call (chunk language : string)
| yield (site : YieldSite) (ev : ProgressEvent)
| file_write (path content : string).

(** How a function ends: with a value or with an exception. *)
Inductive result (A : Type) :=
| Ok (a : A)
| Raise (e : string).
Arguments Ok {A} a.
Arguments Raise {A} e.

(** How the generator ends: exhausted, or by an exception it lets through. *)
Inductive Outcome := returned | raised (e : string).

(** The events a consumer of the generator receives, the chunk events among
    them, and the text files written. *)
Fixpoint yields (tr : list Effect) : list (YieldSite * ProgressEvent) :=
  match tr with
  | [] => []
  | yield site ev :: tr' => (site, ev) :: yields tr'
  | _ :: tr' => yields tr'
  end.

Definition is_chunk_done (y : YieldSite * ProgressEvent) : bool :=
  match fst y with chunk_done => true | _ => false end.

Definition is_terminal (y : YieldSite * ProgressEvent) : bool :=
  negb (is_chunk_done y).

Definition chunk_events (tr : list Effect) : list ProgressEvent :=
  map snd (filter is_chunk_done (yields tr)).

Definition terminal_events (tr : list Effect) : list (YieldSite * ProgressEvent) :=
  filter is_terminal (yields tr).

Fixpoint files_written (tr : list Effect) : list (string * string) :=
  match tr with
  | [] => []
  | file_write path content :: tr' => (path, content) :: files_written tr'
  | _ :: tr' => files_written tr'
  end.

Fixpoint engine_calls (tr : list Effect) : list string :=
  match tr with
  | [] => []
  | engine_call chunk _ :: tr' => chunk :: engine_calls tr'
  | _ :: tr' => engine_calls tr'
  end.

Fixpoint commands_run (tr : list Effect) : list (list string) :=
  match tr with
  | [] => []
  | subprocess_run command :: tr' => command :: commands_run tr'
  | _ :: tr' => commands_run tr'
  end.

(** ** Paths and sorting *)

(** [os.path.join(a, b)] for a directory [a] without a trailing separator
    and a relative [b], on a POSIX system. *)
Definition os_path_join (a b : string) : string := a ++ "/" ++ b.

(** The base name the splitting tool gives its [k]-th segment (counted from
    zero) for the pattern ["chunk_%03d.wav"]. *)
Definition segment_name (k : nat) : string :=
  "chunk_" ++ PyStr.zero_padded 3 (Z.of_nat k) ++ ".wav".

(** [sorted] on strings: the ascending arrangement under [<=]. *)
Fixpoint insert_sorted (x : string) (l : list string) : list string :=
  match l with
  | [] => [x]
  | y :: l' => if String.leb x y then x :: l else y :: insert_sorted x l'
  end.

Fixpoint sorted (l : list string) : list string :=
  match l with
  | [] => []
  | x :: l' => insert_sorted x (sorted l')
  end.

(** The order [sorted] arranges by, and a check of ascending order that
    computes. *)
Definition str_le (s t : string) : Prop := String.leb s t = true.

Fixpoint ascending (l : list string) : bool :=
  match l with
  | x :: (y :: _) as l' => String.leb x y && ascending l'
  | _ => true
  end.

(** ** The display line of a segment (lines 67-70) *)

Definition display_line (seg : Segment) : string :=
  let start := format_time (seg_start seg) in
  let end_ := format_time (seg_end seg) in
  let text := PyStr.strip (seg_text seg) in
  "[" ++ start ++ " - " ++ end_ ++ "]: " ++ text.

(** The format the specification names, written from its words:
    ["H:MM:SS"] of a whole number of seconds, hours not bounded, and the
    display line built on the floor of the two times. *)
Definition hmmss (seconds : Z) : string :=
  PyStr.str_int (seconds / 3600) ++ ":"
  ++ PyStr.zero_padded 2 ((seconds / 60) mod 60) ++ ":"
  ++ PyStr.zero_padded 2 (seconds mod 60).

Definition spec_display_line (seg : Segment) : string :=
  "[" ++ hmmss (Qfloor (seg_start seg)) ++ " - "
  ++ hmmss (Qfloor (seg_end seg)) ++ "]: " ++ PyStr.strip (seg_text seg).

(** Whether a string has the shape ["H:MM:SS"]: one or more digits, a
    colon, two digits, a colon, two digits. *)
Definition is_digit (c : ascii) : bool :=
  ((48 <=? nat_of_ascii c) && (nat_of_ascii c <=? 57))%nat.

Fixpoint skip_digits (s : string) : string :=
  match s with
  | String c s' => if is_digit c then skip_digits s' else s
  | EmptyString => s
  end.

Fixpoint all_digits (s : string) : bool :=
  match s with
  | String c s' => is_digit c && all_digits s'
  | EmptyString => true
  end.

Definition is_hmmss (s : string) : bool :=
  match s with
  | String h _ =>
      is_digit h
      && match skip_digits s with
         | String ":" (String m1 (String m2
             (String ":" (String s1 (String s2 EmptyString))))) =>
             is_digit m1 && is_digit m2 && is_digit s1 && is_digit s2
         | _ => false
         end
  | EmptyString => false
  end.

(** [result.get("segments", [])] *)
Definition get_segments (segments : option (list Segment)) : list Segment :=
  match segments with
  | Some l => l
  | None => []
  end.

(** ** The collaborators *)

(** Everything [transcribe] asks of the world outside the program.
    - [fl]: the rounding of a float operation's exact result.
    - [time_time k]: what the [k]-th call of [time.time()] returns.
    - [mkdtemp k]: the directory the [k]-th call of [tempfile.mkdtemp()]
      creates.
    - [wav_write_raises path sr data]: the exception with which
      [scipy.io.wavfile.write] rejects its arguments (a sample rate that
      does not fit the header, say), if it does.
    - [run_ffmpeg file d]: what [subprocess.run] does with the splitting
      command for [file] and segment time [d]: it raises when the tool
      cannot be started, and otherwise returns after the tool has written
      some number of segment files; zero when the tool fails, since
      [subprocess.run] is called without [check].
    - [listdir names]: the order in which [os.listdir] reports a directory
      holding [names].
    - [stem path]: [Path(path).stem].
    - [model_transcribe size chunk language]: the engine loaded for [size],
      called on [chunk].
    - [open_write_raises path text]: the exception with which opening
      [path] for writing, or writing [text] to it, fails, if it does.

    Loading the model and making the output directory (lines 38-39) are
    taken to return: [model_size] ranges over the names the engine knows. *)
Class World := {
  fl : Q -> Q;
  time_time : nat -> Q;
  mkdtemp : nat -> string;
  wav_write_raises : string -> Z -> list Z -> option string;
  run_ffmpeg : string -> Z -> result nat;
  listdir : list string -> list string;
  stem : string -> string;
  model_transcribe : string -> string -> string -> TranscribeResult;
  open_write_raises : string -> string -> option string
}.

(** How many segment files the tool has written once [subprocess.run] is
    over: none when it could not be started. *)
Definition ffmpeg_segments {W : World} (file_path : string) (d : Z) : nat :=
  match run_ffmpeg file_path d with
  | Ok n => n
  | Raise _ => 0%nat
  end.

(** What the platform guarantees of two of them. *)
Definition listdir_complete (W : World) : Prop :=
  forall names, Permutation (listdir names) names.

Definition rounding (W : World) : Prop :=
  (forall x y : Q, (x <= y)%Q -> (fl x <= fl y)%Q) /\ (fl 0 == 0)%Q.

(** ** The program *)

Section Program.

Context {W : World}.

(** Lines 17-23. [tmp] counts the temporary directories made so far. *)
Definition save_recorded_audio (tmp : nat) (audio_np : option (list Z)) (sr : Z)
  : list Effect * result string :=
  match audio_np with
  | None => ([], Raise "No audio data received from microphone.")
  | Some data =>
      if (List.length data =? 0)%nat
      then ([], Raise "No audio data received from microphone.")
      else
        let temp_dir := mkdtemp tmp in
        let temp_path := os_path_join temp_dir "recorded.wav" in
        match wav_write_raises temp_path sr data with
        | Some e => ([wav_write temp_path sr data], Raise e)
        | None => ([wav_write temp_path sr data], Ok temp_path)
        end
  end.

(** Line 34 raising: [subprocess.run] could not start the tool, and
    [split_audio] lets the exception through. *)
Definition split_audio_raises (file_path : string) (chunk_duration : Z)
  : option string :=
  match run_ffmpeg file_path chunk_duration with
  | Raise e => Some e
  | Ok _ => None
  end.

(** Lines 25-35: the effects of [split_audio] and, when line 34 returns,
    the list it returns. The directory is new, so what [os.listdir] finds in
    it is what the tool wrote: its segments [0 .. n-1], named after the
    pattern. *)
Definition split_audio (tmp : nat) (file_path : string) (chunk_duration : Z)
  : list Effect * list string :=
  let tmp_dir := mkdtemp tmp in
  let chunk_pattern := os_path_join tmp_dir "chunk_%03d.wav" in
  let command :=
    ["ffmpeg"; "-i"; file_path;
     "-f"; "segment"; "-segment_time"; PyStr.str_int chunk_duration;
     "-c:a"; "pcm_s16le"; "-ar"; "16000"; "-ac"; "1";
     chunk_pattern] in
  let written :=
    map segment_name (seq 0 (ffmpeg_segments file_path chunk_duration)) in
  ([subprocess_run command],
   sorted (map (os_path_join tmp_dir)
             (filter (fun f => PyStr.endswith f ".wav") (listdir written)))).

(** Lines 42-48, the body of the [try]: the resolved file, the name of the
    transcript, and the number of temporary directories made. *)
Definition resolve_input (audio_input : AudioInput)
  : list Effect * result (string * string * nat) :=
  match audio_input with
  | Recorded sr audio_np =>
      match save_recorded_audio 0 audio_np sr with
      | (eff, Ok audio_file) => (eff, Ok (audio_file, "recorded_audio", 1%nat))
      | (eff, Raise e) => (eff, Raise e)
      end
  | FilePath audio_file => ([], Ok (audio_file, stem audio_file, 0%nat))
  end.

(** Lines 56-58: the effects and, unless [split_audio] raises, the chunk
    list; and the exception [split_audio] raises, if it is called and does. *)
Definition get_chunks (tmp : nat) (audio_file : string) (chunk_duration : Z)
  : list Effect * list string :=
  if chunk_duration >? 0
  then split_audio tmp audio_file chunk_duration
  else ([], [audio_file]).

Definition get_chunks_raises (audio_file : string) (chunk_duration : Z)
  : option string :=
  if chunk_duration >? 0
  then split_audio_raises audio_file chunk_duration
  else None.

(** Lines 73-74. *)
Definition avg_time (elapsed : Q) (i : nat) : Q :=
  fl (elapsed / inject_Z (Z.of_nat i + 1)).

Definition eta (avg_time : Q) (total_chunks i : nat) : Q :=
  fl (avg_time * inject_Z (Z.of_nat total_chunks - Z.of_nat i - 1)).

(** Line 76. *)
Definition progress_status (i total_chunks : nat) (elapsed eta : Q) : string :=
  "🔄 Chunk " ++ PyStr.str_int (Z.of_nat i + 1) ++ "/"
  ++ PyStr.str_int (Z.of_nat total_chunks)
  ++ " | ⏱ Elapsed: " ++ format_time elapsed
  ++ " | ETA: " ++ format_time eta.

(** Lines 63-78, the loop over [enumerate(chunks)] from index [i] on, with
    [transcript_lines] as accumulated so far: its effects and, unless the
    engine raised, the lines accumulated at the end. *)
Fixpoint process_chunks (model_size language : string)
    (total_chunks : nat) (start_time : Q)
    (chunks : list string) (i : nat) (transcript_lines : list string)
  : list Effect * result (list string) :=
  match chunks with
  | [] => ([], Ok transcript_lines)
  | chunk :: rest =>
      match model_transcribe model_size chunk language with
      | engine_raises e => ([engine_call chunk language], Raise e)
      | engine_returns segments =>
          let transcript_lines :=
            List.app transcript_lines (map display_line (get_segments segments)) in
          let elapsed := fl (time_time (S i) - start_time) in
          let avg_time := avg_time elapsed i in
          let eta := eta avg_time total_chunks i in
          let progress_status := progress_status i total_chunks elapsed eta in
          let current_transcript :=
            PyStr.join PyStr.newline (PyStr.last_items 10 transcript_lines) in
          let (eff, r) :=
            process_chunks model_size language total_chunks start_time
              rest (S i) transcript_lines in
          (engine_call chunk language
             :: yield chunk_done (progress_status, current_transcript, None)
             :: eff, r)
      end
  end.

(** Lines 37-86. *)
Definition transcribe (audio_input : AudioInput) (model_size language : string)
    (chunk_duration : Z) : list Effect * Outcome :=
  let setup := [load_model model_size; makedirs "transcriptions"] in
  match resolve_input audio_input with
  | (eff0, Raise e) =>
      (List.app setup
         (List.app eff0
            [yield input_failure ("❌ Recording failed: " ++ e, "", None)]),
       returned)
  | (eff0, Ok (audio_file, file_name, tmp)) =>
      let output_txt_path := "transcriptions/" ++ file_name ++ ".txt" in
      let (eff1, chunks) := get_chunks tmp audio_file chunk_duration in
      match get_chunks_raises audio_file chunk_duration with
      | Some e => (List.app setup (List.app eff0 eff1), raised e)
      | None =>
          let total_chunks := List.length chunks in
          let start_time := time_time 0 in
          match process_chunks model_size language total_chunks start_time
                  chunks 0 [] with
          | (eff2, Raise e) =>
              (List.app setup (List.app eff0 (List.app eff1 eff2)), raised e)
          | (eff2, Ok transcript_lines) =>
              match open_write_raises output_txt_path
                      (PyStr.join PyStr.newline transcript_lines) with
              | Some e =>
                  (List.app setup (List.app eff0 (List.app eff1 eff2)),
                   raised e)
              | None =>
                  let full_transcript :=
                    PyStr.join PyStr.newline transcript_lines in
                  let total_time :=
                    fl (time_time (S total_chunks) - start_time) in
                  (List.app setup
                     (List.app eff0
                        (List.app eff1
                           (List.app eff2
                              [file_write output_txt_path
                                 (PyStr.join PyStr.newline transcript_lines);
                               yield run_done
                                 ("✅ Done in " ++ format_time total_time,
                                  full_transcript, Some output_txt_path)]))),
                   returned)
              end
          end
      end
  end.

(** Lines 45, 48 and 53: the name and the path of the transcript. *)
Definition file_name_of (audio_input : AudioInput) : string :=
  match audio_input with
  | Recorded _ _ => "recorded_audio"
  | FilePath path => stem path
  end.

Definition transcript_path (audio_input : AudioInput) : string :=
  "transcriptions/" ++ file_name_of audio_input ++ ".txt".

(** The chunk list of a run whose input resolved and whose segmenting
    returned, and the display lines the engine's answer for a chunk
    contributes. *)
Definition chunks_of (audio_input : AudioInput) (chunk_duration : Z)
  : option (list string) :=
  match resolve_input audio_input with
  | (_, Ok (audio_file, _, tmp)) =>
      match get_chunks_raises audio_file chunk_duration with
      | None => Some (snd (get_chunks tmp audio_file chunk_duration))
      | Some _ => None
      end
  | (_, Raise _) => None
  end.

Definition chunk_lines (model_size language chunk : string) : list string :=
  match model_transcribe model_size chunk language with
  | engine_returns segments => map display_line (get_segments segments)
  | engine_raises _ => []
  end.

(** The lines accumulated once the chunks up to index [k] are done, and
    the elapsed time measured in iteration [k]. *)
Definition lines_through (model_size language : string)
    (chunks : list string) (k : nat) : list string :=
  List.concat (map (chunk_lines model_size language) (firstn (S k) chunks)).

Definition elapsed_at (k : nat) : Q :=
  fl (time_time (S k) - time_time 0).

Definition engine_succeeds (model_size language chunk : string) : Prop :=
  exists segments,
    model_transcribe model_size chunk language = engine_returns segments.

End Program.

(** ** A sample world *)

Module Sample.

Definition segments_of (chunk : string) : list Segment :=
  [mkSegment 0 (5 # 2) (" Hello from " ++ chunk);
   mkSegment (5 # 2) 3661 "  second line "].

(** The sample rates a WAV header holds: the rate and, for 16-bit mono
    samples, twice the rate fit in 32 bits. *)
Definition wav_rejects (path : string) (sr : Z) (data : list Z) : option string :=
  if (sr <? 0) || (4294967295 <? 2 * sr)
  then Some "'I' format requires 0 <= number <= 4294967295"
  else None.

(** Exact arithmetic, a clock that advances three seconds per reading, a
    tool that cuts every file in [pieces] segments, a listing in reverse
    order, an engine that answers two segments for every chunk, a disk that
    takes every file. *)
Definition world (pieces : nat) : World := {|
  fl := fun x => x;
  time_time := fun k => inject_Z (1000 + 3 * Z.of_nat k);
  mkdtemp := fun k => "/tmp/tmp" ++ PyStr.str_int (Z.of_nat k);
  wav_write_raises := wav_rejects;
  run_ffmpeg := fun _ _ => Ok pieces;
  listdir := fun names => rev names;
  stem := fun path => "talk";
  model_transcribe := fun _ chunk _ => engine_returns (Some (segments_of chunk));
  open_write_raises := fun _ _ => None
|}.

(** The same world with an engine that raises on the chunk [bad], and
    with an engine whose answers hold no ["segments"] entry. *)
Definition failing_world (pieces : nat) (bad : string) : World := {|
  fl := fun x => x;
  time_time := fun k => inject_Z (1000 + 3 * Z.of_nat k);
  mkdtemp := fun k => "/tmp/tmp" ++ PyStr.str_int (Z.of_nat k);
  wav_write_raises := wav_rejects;
  run_ffmpeg := fun _ _ => Ok pieces;
  listdir := fun names => rev names;
  stem := fun path => "talk";
  model_transcribe := fun _ chunk _ =>
    if String.eqb chunk bad then engine_raises "CUDA out of memory"
    else engine_returns (Some (segments_of chunk));
  open_write_raises := fun _ _ => None
|}.

Definition silent_world (pieces : nat) : World := {|
  fl := fun x => x;
  time_time := fun k => inject_Z (1000 + 3 * Z.of_nat k);
  mkdtemp := fun k => "/tmp/tmp" ++ PyStr.str_int (Z.of_nat k);
  wav_write_raises := wav_rejects;
  run_ffmpeg := fun _ _ => Ok pieces;
  listdir := fun names => rev names;
  stem := fun path => "talk";
  model_transcribe := fun _ _ _ => engine_returns None;
  open_write_raises := fun _ _ => None
|}.

(** The same world without the splitting tool installed, and with an
    output directory that takes no file. *)
Definition no_tool_world : World := {|
  fl := fun x => x;
  time_time := fun k => inject_Z (1000 + 3 * Z.of_nat k);
  mkdtemp := fun k => "/tmp/tmp" ++ PyStr.str_int (Z.of_nat k);
  wav_write_raises := wav_rejects;
  run_ffmpeg := fun _ _ => Raise "[Errno 2] No such file or directory: 'ffmpeg'";
  listdir := fun names => rev names;
  stem := fun path => "talk";
  model_transcribe := fun _ chunk _ => engine_returns (Some (segments_of chunk));
  open_write_raises := fun _ _ => None
|}.

Definition read_only_world (pieces : nat) : World := {|
  fl := fun x => x;
  time_time := fun k => inject_Z (1000 + 3 * Z.of_nat k);
  mkdtemp := fun k => "/tmp/tmp" ++ PyStr.str_int (Z.of_nat k);
  wav_write_raises := wav_rejects;
  run_ffmpeg := fun _ _ => Ok pieces;
  listdir := fun names => rev names;
  stem := fun path => "talk";
  model_transcribe := fun _ chunk _ => engine_returns (Some (segments_of chunk));
  open_write_raises := fun path _ =>
    Some ("[Errno 13] Permission denied: '" ++ path ++ "'")
|}.

End Sample.

(** ** Strings: order, suffixes, joins *)

Section StringOrder.

Lemma ascii_compare_N (a b : ascii) :
  Ascii.compare a b = N.compare (N_of_ascii a) (N_of_ascii b).
Proof. reflexivity. Qed.

Lemma compare_cons (a b : ascii) (s t : string) :
  String.compare (String a s) (String b t) =
  match N.compare (N_of_ascii a) (N_of_ascii b) with
  | Eq => String.compare s t
  | c => c
  end.
Proof.
  simpl. rewrite ascii_compare_N.
  destruct (N.compare (N_of_ascii a) (N_of_ascii b)); reflexivity.
Qed.

Lemma compare_refl (s : string) : String.compare s s = Eq.
Proof.
  induction s as [|a s IH]; [reflexivity|].
  rewrite compare_cons, N.compare_refl. exact IH.
Qed.

Lemma compare_not_gt_trans (s t u : string) :
  String.compare s t <> Gt -> String.compare t u <> Gt ->
  String.compare s u <> Gt.
Proof.
  revert t u. induction s as [|a s IH]; intros [|b t] [|c u]; simpl;
    try congruence.
  fold (String.compare s t) (String.compare t u) (String.compare s u).
  rewrite !ascii_compare_N.
  destruct (N.compare_spec (N_of_ascii a) (N_of_ascii b)) as [Hab|Hab|Hab];
    destruct (N.compare_spec (N_of_ascii b) (N_of_ascii c)) as [Hbc|Hbc|Hbc];
    destruct (N.compare_spec (N_of_ascii a) (N_of_ascii c)) as [Hac|Hac|Hac];
    try congruence; try lia.
  apply IH.
Qed.

Lemma leb_not_gt (s t : string) :
  String.leb s t = true <-> String.compare s t <> Gt.
Proof.
  unfold String.leb. destruct (String.compare s t); split; congruence.
Qed.

Lemma leb_trans (s t u : string) :
  String.leb s t = true -> String.leb t u = true -> String.leb s u = true.
Proof. rewrite !leb_not_gt. apply compare_not_gt_trans. Qed.

Lemma leb_refl (s : string) : String.leb s s = true.
Proof. apply leb_not_gt. rewrite compare_refl. discriminate. Qed.

(** A common prefix does not change the order. *)
Lemma compare_append (p s t : string) :
  String.compare (p ++ s) (p ++ t) = String.compare s t.
Proof.
  induction p as [|a p IH]; [reflexivity|].
  change (String.compare (String a (p ++ s)) (String a (p ++ t))
          = String.compare s t).
  rewrite compare_cons, N.compare_refl. exact IH.
Qed.

Lemma leb_os_path_join (d s t : string) :
  String.leb (os_path_join d s) (os_path_join d t) = String.leb s t.
Proof.
  unfold os_path_join, String.leb. now rewrite !compare_append.
Qed.

Lemma os_path_join_inj (d s t : string) :
  os_path_join d s = os_path_join d t -> s = t.
Proof.
  unfold os_path_join. intros H.
  apply String.compare_eq_iff.
  rewrite <- (compare_append "/"), <- (compare_append d), H.
  apply compare_refl.
Qed.

Lemma endswith_eq (s suffix : string) :
  PyStr.endswith s suffix =
  if String.eqb s suffix then true
  else match s with
       | EmptyString => false
       | String _ s' => PyStr.endswith s' suffix
       end.
Proof. destruct s; reflexivity. Qed.

Lemma endswith_append (s suffix : string) :
  PyStr.endswith (s ++ suffix) suffix = true.
Proof.
  induction s as [|a s IH].
  - rewrite endswith_eq. simpl. now rewrite String.eqb_refl.
  - change (String a s ++ suffix) with (String a (s ++ suffix)).
    rewrite endswith_eq, IH. now destruct (String.eqb _ _).
Qed.

Lemma segment_name_wav (k : nat) :
  PyStr.endswith (segment_name k) ".wav" = true.
Proof.
  unfold segment_name.
  change ("chunk_" ++ PyStr.zero_padded 3 (Z.of_nat k) ++ ".wav")
    with ("chunk_" ++ (PyStr.zero_padded 3 (Z.of_nat k) ++ ".wav")).
  set (z := PyStr.zero_padded 3 (Z.of_nat k)).
  replace ("chunk_" ++ (z ++ ".wav")) with (("chunk_" ++ z) ++ ".wav")
    by reflexivity.
  apply endswith_append.
Qed.

End StringOrder.

(** ** [sorted] arranges any listing in the one ascending order *)

Section Sorting.

Lemma insert_sorted_perm (x : string) (l : list string) :
  Permutation (insert_sorted x l) (x :: l).
Proof.
  induction l as [|y l IH]; simpl; [reflexivity|].
  destruct (String.leb x y); [reflexivity|].
  rewrite IH. apply perm_swap.
Qed.

Lemma sorted_perm (l : list string) : Permutation (sorted l) l.
Proof.
  induction l as [|x l IH]; simpl; [reflexivity|].
  rewrite insert_sorted_perm. now constructor.
Qed.

Lemma insert_sorted_ascending (x : string) (l : list string) :
  StronglySorted str_le l -> StronglySorted str_le (insert_sorted x l).
Proof.
  induction 1 as [|y l Hl IH Hy]; simpl.
  - repeat constructor.
  - destruct (String.leb x y) eqn:Hxy.
    + constructor; [now constructor|].
      constructor; [exact Hxy|].
      eapply Forall_impl; [|exact Hy].
      intros z Hz. eapply leb_trans; eassumption.
    + constructor; [exact IH|].
      eapply Permutation_Forall;
        [symmetry; apply insert_sorted_perm|].
      constructor; [|exact Hy].
      destruct (String.leb_total x y) as [H|H]; [congruence|exact H].
Qed.

Lemma sorted_ascending (l : list string) : StronglySorted str_le (sorted l).
Proof.
  induction l as [|x l IH]; simpl; [constructor|].
  now apply insert_sorted_ascending.
Qed.

(** Two ascending arrangements of the same items are the same list. *)
Lemma ascending_unique (l1 : list string) :
  forall l2, StronglySorted str_le l1 -> StronglySorted str_le l2 ->
             Permutation l1 l2 -> l1 = l2.
Proof.
  induction l1 as [|x l1 IH]; intros l2 S1 S2 P.
  - now apply Permutation_nil in P.
  - destruct l2 as [|y l2];
      [now apply Permutation_sym, Permutation_nil in P|].
    inversion S1 as [|? ? S1' F1]; inversion S2 as [|? ? S2' F2]; subst.
    assert (Hxy : x = y).
    { assert (Hx : In x (y :: l2))
        by (eapply Permutation_in; [exact P|now left]).
      assert (Hy : In y (x :: l1))
        by (eapply Permutation_in; [symmetry; exact P|now left]).
      destruct Hx as [->|Hx]; [reflexivity|].
      destruct Hy as [->|Hy]; [reflexivity|].
      rewrite Forall_forall in F1, F2.
      apply String.leb_antisym; [apply F1, Hy|apply F2, Hx]. }
    subst y. f_equal. apply IH; trivial.
    eapply Permutation_cons_inv; exact P.
Qed.

Lemma sorted_of_listing (listing l : list string) :
  Permutation listing l -> sorted listing = sorted l.
Proof.
  intros P. apply ascending_unique; try apply sorted_ascending.
  now rewrite !sorted_perm.
Qed.

Lemma sorted_ascending_id (l : list string) :
  StronglySorted str_le l -> sorted l = l.
Proof.
  intros S. apply ascending_unique; trivial.
  - apply sorted_ascending.
  - apply sorted_perm.
Qed.

(** Sorting commutes with putting the directory in front. *)
Lemma insert_sorted_join (d x : string) (l : list string) :
  insert_sorted (os_path_join d x) (map (os_path_join d) l)
  = map (os_path_join d) (insert_sorted x l).
Proof.
  induction l as [|y l IH]; simpl; [reflexivity|].
  rewrite leb_os_path_join.
  destruct (String.leb x y); simpl; [reflexivity|now rewrite IH].
Qed.

Lemma sorted_join (d : string) (l : list string) :
  sorted (map (os_path_join d) l) = map (os_path_join d) (sorted l).
Proof.
  induction l as [|x l IH]; simpl; [reflexivity|].
  now rewrite IH, insert_sorted_join.
Qed.

Lemma ascending_sound (l : list string) :
  ascending l = true -> StronglySorted str_le l.
Proof.
  induction l as [|x l IH]; [constructor|].
  destruct l as [|y l]; [repeat constructor|].
  intros H. change (String.leb x y && ascending (y :: l) = true) in H.
  apply andb_true_iff in H as [Hxy Hl].
  specialize (IH Hl). constructor; [exact IH|].
  constructor; [exact Hxy|].
  inversion IH as [|? ? _ F]; subst.
  eapply Forall_impl; [|exact F].
  intros z Hz. eapply leb_trans; eassumption.
Qed.

Lemma ascending_prefix (l1 l2 : list string) :
  StronglySorted str_le (List.app l1 l2) -> StronglySorted str_le l1.
Proof.
  induction l1 as [|x l1 IH]; simpl; intros S; [constructor|].
  inversion S as [|? ? S' F]; subst.
  constructor; [now apply IH|].
  apply Forall_app in F. tauto.
Qed.

End Sorting.

(** ** What [split_audio] returns *)

Section Segmenter.

Context {W : World}.
Hypothesis listing : listdir_complete W.

Lemma filter_all {A : Type} (f : A -> bool) (l : list A) :
  (forall x, In x l -> f x = true) -> filter f l = l.
Proof.
  induction l as [|x l IH]; simpl; intros H; [reflexivity|].
  rewrite (H x) by now left.
  f_equal. apply IH. intros y Hy. apply H. now right.
Qed.

(** The chunk list is the ascending arrangement of the names the tool
    wrote, each under the temporary directory. *)
Lemma split_audio_chunks (tmp : nat) (file_path : string) (d : Z) :
  snd (split_audio tmp file_path d) =
  map (os_path_join (mkdtemp tmp))
    (sorted (map segment_name (seq 0 (ffmpeg_segments file_path d)))).
Proof.
  unfold split_audio; simpl snd.
  set (written := map segment_name (seq 0 (ffmpeg_segments file_path d))).
  rewrite filter_all.
  - rewrite sorted_join. f_equal. apply sorted_of_listing, listing.
  - intros f Hf.
    apply (Permutation_in _ (listing written)) in Hf.
    apply in_map_iff in Hf as (k & <- & _). apply segment_name_wav.
Qed.

Lemma split_audio_length (tmp : nat) (file_path : string) (d : Z) :
  List.length (snd (split_audio tmp file_path d)) = ffmpeg_segments file_path d.
Proof.
  rewrite split_audio_chunks, length_map.
  rewrite (Permutation_length (sorted_perm _)).
  now rewrite length_map, length_seq.
Qed.

Lemma split_audio_effects (tmp : nat) (file_path : string) (d : Z) :
  exists command, fst (split_audio tmp file_path d) = [subprocess_run command].
Proof. unfold split_audio. simpl. eauto. Qed.

(** Up to a thousand segments the three-digit names ascend with the
    counter. *)
Lemma segment_names_ascending (n : nat) :
  (n <= 1000)%nat -> StronglySorted str_le (map segment_name (seq 0 n)).
Proof.
  intros Hn.
  assert (S1000 : StronglySorted str_le (map segment_name (seq 0 1000))).
  { apply ascending_sound. vm_compute. reflexivity. }
  replace 1000%nat with (n + (1000 - n))%nat in S1000 by lia.
  rewrite seq_app, map_app in S1000.
  eapply ascending_prefix; exact S1000.
Qed.

(** So a source cut in at most a thousand segments is processed in the
    order of the recording. *)
Lemma split_audio_chronological (tmp : nat) (file_path : string) (d : Z) :
  (ffmpeg_segments file_path d <= 1000)%nat ->
  snd (split_audio tmp file_path d) =
  map (fun k => os_path_join (mkdtemp tmp) (segment_name k))
    (seq 0 (ffmpeg_segments file_path d)).
Proof.
  intros Hn. rewrite split_audio_chunks.
  rewrite sorted_ascending_id by now apply segment_names_ascending.
  now rewrite map_map.
Qed.

(** With a thousand and one segments the last name sorts between the
    names of segments 100 and 101, whatever the order of the listing. *)
Lemma split_audio_misplaces_segment_1000 (tmp : nat) (file_path : string)
    (d : Z) :
  ffmpeg_segments file_path d = 1001%nat ->
  nth_error (snd (split_audio tmp file_path d)) 101
  = Some (os_path_join (mkdtemp tmp) (segment_name 1000)).
Proof.
  intros Hn. rewrite split_audio_chunks, Hn, nth_error_map.
  replace (nth_error (sorted (map segment_name (seq 0 1001))) 101)
    with (Some (segment_name 1000)) by (vm_compute; reflexivity).
  reflexivity.
Qed.

End Segmenter.

(** ** What the loop does *)

Section Traces.

Lemma yields_app (a b : list Effect) :
  yields (List.app a b) = List.app (yields a) (yields b).
Proof.
  induction a as [|[] a IH]; simpl; try exact IH; [reflexivity|].
  now rewrite IH.
Qed.

Lemma files_written_app (a b : list Effect) :
  files_written (List.app a b) = List.app (files_written a) (files_written b).
Proof.
  induction a as [|[] a IH]; simpl; try exact IH; [reflexivity|].
  now rewrite IH.
Qed.

Lemma engine_calls_app (a b : list Effect) :
  engine_calls (List.app a b) = List.app (engine_calls a) (engine_calls b).
Proof.
  induction a as [|[] a IH]; simpl; try exact IH; [reflexivity|].
  now rewrite IH.
Qed.

Lemma commands_run_app (a b : list Effect) :
  commands_run (List.app a b) = List.app (commands_run a) (commands_run b).
Proof.
  induction a as [|[] a IH]; simpl; try exact IH; [reflexivity|].
  now rewrite IH.
Qed.

Lemma chunk_events_app (a b : list Effect) :
  chunk_events (List.app a b) = List.app (chunk_events a) (chunk_events b).
Proof.
  unfold chunk_events. now rewrite yields_app, filter_app, map_app.
Qed.

Lemma terminal_events_app (a b : list Effect) :
  terminal_events (List.app a b)
  = List.app (terminal_events a) (terminal_events b).
Proof. unfold terminal_events. now rewrite yields_app, filter_app. Qed.

Lemma in_yields (site : YieldSite) (ev : ProgressEvent) (tr : list Effect) :
  In (yield site ev) tr <-> In (site, ev) (yields tr).
Proof.
  induction tr as [|e tr IH]; simpl; [tauto|].
  destruct e; simpl; rewrite <- IH; intuition (try congruence).
Qed.

Lemma chunk_done_not_terminal (evs : list ProgressEvent) :
  filter is_terminal (map (pair chunk_done) evs) = [].
Proof. induction evs as [|ev evs IH]; [reflexivity|exact IH]. Qed.

Lemma last_items_suffix {A : Type} (n : nat) (l : list A) :
  l = List.app (firstn (List.length l - n) l) (PyStr.last_items n l)
  /\ List.length (PyStr.last_items n l) = Nat.min n (List.length l).
Proof.
  unfold PyStr.last_items. split.
  - symmetry. apply firstn_skipn.
  - rewrite length_skipn. lia.
Qed.

End Traces.

Section Loop.

Context {W : World}.
Variables model_size language : string.
Variable total_chunks : nat.
Variable start_time : Q.

Local Abbreviation loop :=
  (process_chunks model_size language total_chunks start_time).

(** One iteration, when the engine answers and when it raises. *)
Lemma loop_step (chunk : string) (rest : list string) (i : nat)
    (acc : list string) (segments : option (list Segment)) :
  model_transcribe model_size chunk language = engine_returns segments ->
  let acc' := List.app acc (map display_line (get_segments segments)) in
  let elapsed := fl (time_time (S i) - start_time) in
  loop (chunk :: rest) i acc =
  (engine_call chunk language
     :: yield chunk_done
          (progress_status i total_chunks elapsed
             (eta (avg_time elapsed i) total_chunks i),
           PyStr.join PyStr.newline (PyStr.last_items 10 acc'),
           None)
     :: fst (loop rest (S i) acc'),
   snd (loop rest (S i) acc')).
Proof.
  intros H. simpl. rewrite H.
  now destruct (process_chunks _ _ _ _ rest _ _).
Qed.

Lemma loop_raise (chunk : string) (rest : list string) (i : nat)
    (acc : list string) (e : string) :
  model_transcribe model_size chunk language = engine_raises e ->
  loop (chunk :: rest) i acc = ([engine_call chunk language], Raise e).
Proof. intros H. simpl. now rewrite H. Qed.

Lemma chunk_lines_returns (chunk : string) (segments : option (list Segment)) :
  model_transcribe model_size chunk language = engine_returns segments ->
  chunk_lines model_size language chunk = map display_line (get_segments segments).
Proof. intros H. unfold chunk_lines. now rewrite H. Qed.

(** The loop writes no file, runs no command, and yields only at the end
    of an iteration. *)
Lemma loop_quiet (chunks : list string) :
  forall i acc,
    files_written (fst (loop chunks i acc)) = []
    /\ commands_run (fst (loop chunks i acc)) = []
    /\ yields (fst (loop chunks i acc))
       = map (pair chunk_done) (chunk_events (fst (loop chunks i acc))).
Proof.
  induction chunks as [|chunk rest IH]; intros i acc; [now cbn|].
  destruct (model_transcribe model_size chunk language) as [e|segments] eqn:E.
  - rewrite (loop_raise _ _ _ _ _ E). now cbn.
  - rewrite (loop_step _ _ _ _ _ E). cbn zeta.
    destruct (IH (S i)
                (List.app acc (map display_line (get_segments segments))))
      as (Hf & Hc & Hy).
    cbn [fst files_written commands_run yields].
    repeat split; trivial.
    unfold chunk_events in *. cbn [filter is_chunk_done fst map snd].
    now rewrite Hy.
Qed.

(** A loop that ends normally called the engine on every chunk, in order,
    got an answer each time, yielded once per chunk and accumulated the
    lines of all chunks. *)
Lemma loop_finished (chunks : list string) :
  forall i acc lines,
    snd (loop chunks i acc) = Ok lines ->
    Forall (engine_succeeds model_size language) chunks
    /\ lines = List.app acc
                 (List.concat (map (chunk_lines model_size language) chunks))
    /\ List.length (chunk_events (fst (loop chunks i acc)))
       = List.length chunks
    /\ engine_calls (fst (loop chunks i acc)) = chunks.
Proof.
  induction chunks as [|chunk rest IH]; intros i acc lines.
  - cbn. intros [= <-]. now rewrite app_nil_r.
  - destruct (model_transcribe model_size chunk language) as [e|segments] eqn:E.
    + rewrite (loop_raise _ _ _ _ _ E). discriminate.
    + rewrite (loop_step _ _ _ _ _ E). cbn zeta. cbn [snd fst]. intros H.
      destruct (IH _ _ _ H) as (Hs & Hl & Hn & Hc).
      repeat split.
      * constructor; [now exists segments|exact Hs].
      * rewrite Hl. cbn [map List.concat].
        now rewrite (chunk_lines_returns _ _ E), app_assoc.
      * unfold chunk_events in *. cbn. now rewrite Hn.
      * cbn. now rewrite Hc.
Qed.

(** A loop that ends by an exception met a chunk on which the engine
    raised it; a loop over chunks the engine answers ends normally. *)
Lemma loop_aborted (chunks : list string) :
  forall i acc e,
    snd (loop chunks i acc) = Raise e ->
    exists chunk, In chunk chunks
      /\ model_transcribe model_size chunk language = engine_raises e.
Proof.
  induction chunks as [|chunk rest IH]; intros i acc e; [discriminate|].
  destruct (model_transcribe model_size chunk language) as [e'|segments] eqn:E.
  - rewrite (loop_raise _ _ _ _ _ E). intros [= <-].
    exists chunk. split; [now left|exact E].
  - rewrite (loop_step _ _ _ _ _ E). cbn zeta. cbn [snd]. intros H.
    destruct (IH _ _ _ H) as (c & Hc & Hr). exists c. split; [now right|exact Hr].
Qed.

Lemma loop_completes (chunks : list string) (i : nat) (acc : list string) :
  (forall chunk, In chunk chunks -> engine_succeeds model_size language chunk) ->
  exists lines, snd (loop chunks i acc) = Ok lines.
Proof.
  intros Hall.
  destruct (snd (loop chunks i acc)) as [lines|e] eqn:E; [eauto|].
  apply loop_aborted in E as (c & Hc & Hr).
  destruct (Hall c Hc) as (segments & Hs). congruence.
Qed.

(** The [k]-th event of the loop, whatever happens after it. *)
Lemma loop_event (chunks : list string) :
  forall i acc k ev,
    nth_error (chunk_events (fst (loop chunks i acc))) k = Some ev ->
    let elapsed := fl (time_time (S (i + k)) - start_time) in
    ev = (progress_status (i + k) total_chunks elapsed
            (eta (avg_time elapsed (i + k)) total_chunks (i + k)),
          PyStr.join PyStr.newline
            (PyStr.last_items 10
               (List.app acc (lines_through model_size language chunks k))),
          None).
Proof.
  induction chunks as [|chunk rest IH]; intros i acc k ev.
  - cbn. now destruct k.
  - destruct (model_transcribe model_size chunk language) as [e|segments] eqn:E.
    + rewrite (loop_raise _ _ _ _ _ E). cbn. now destruct k.
    + rewrite (loop_step _ _ _ _ _ E). cbn zeta. cbn [fst].
      unfold chunk_events. cbn [yields filter is_chunk_done fst map snd].
      fold (chunk_events
              (fst (loop rest (S i)
                      (List.app acc (map display_line (get_segments segments)))))).
      unfold lines_through. cbn [firstn map List.concat].
      rewrite (chunk_lines_returns _ _ E).
      destruct k as [|k]; cbn [nth_error].
      * intros [= <-]. rewrite Nat.add_0_r. cbn [firstn map List.concat].
        now rewrite app_nil_r.
      * intros H. apply IH in H. cbn zeta in H.
        rewrite <- plus_n_Sm. rewrite H. unfold lines_through.
        now rewrite app_assoc.
Qed.

Lemma loop_events_bound (chunks : list string) :
  forall i acc,
    (List.length (chunk_events (fst (loop chunks i acc)))
     <= List.length chunks)%nat.
Proof.
  induction chunks as [|chunk rest IH]; intros i acc; [cbn; lia|].
  destruct (model_transcribe model_size chunk language) as [e|segments] eqn:E.
  - rewrite (loop_raise _ _ _ _ _ E). cbn. lia.
  - rewrite (loop_step _ _ _ _ _ E). cbn zeta. cbn [fst].
    unfold chunk_events. cbn [yields filter is_chunk_done fst map snd].
    cbn [List.length]. apply le_n_S. apply IH.
Qed.

End Loop.

(** ** The shape of a run *)

Section Runs.

Context {W : World}.

(** Resolving the input yields nothing, writes no text file, calls no
    engine and starts no command; it fails for recordings only. *)
Lemma resolve_input_effects (audio_input : AudioInput) :
  yields (fst (resolve_input audio_input)) = []
  /\ files_written (fst (resolve_input audio_input)) = []
  /\ engine_calls (fst (resolve_input audio_input)) = []
  /\ commands_run (fst (resolve_input audio_input)) = [].
Proof.
  destruct audio_input as [sr [data|]|path]; cbn; try tauto.
  destruct data as [|x data]; cbn; [tauto|].
  destruct (wav_write_raises _ sr (x :: data)); cbn; tauto.
Qed.

Lemma get_chunks_effects (tmp : nat) (audio_file : string) (d : Z) :
  yields (fst (get_chunks tmp audio_file d)) = []
  /\ files_written (fst (get_chunks tmp audio_file d)) = []
  /\ engine_calls (fst (get_chunks tmp audio_file d)) = [].
Proof. unfold get_chunks. destruct (d >? 0); cbn; tauto. Qed.

(** A run whose input does not resolve is the set-up, the attempt to save
    the recording if one was made, and the one failure event. *)
Lemma transcribe_rejected (audio_input : AudioInput)
    (model_size language : string) (d : Z) (eff0 : list Effect) (e : string) :
  resolve_input audio_input = (eff0, Raise e) ->
  transcribe audio_input model_size language d =
  (List.app [load_model model_size; makedirs "transcriptions"]
     (List.app eff0
        [yield input_failure ("❌ Recording failed: " ++ e, "", None)]),
   returned).
Proof. intros H. unfold transcribe. now rewrite H. Qed.

(** A run whose segmenting raises ends there. *)
Lemma transcribe_split_raised (audio_input : AudioInput)
    (model_size language : string) (d : Z)
    (eff0 : list Effect) (audio_file file_name : string) (tmp : nat)
    (e : string) :
  resolve_input audio_input = (eff0, Ok (audio_file, file_name, tmp)) ->
  get_chunks_raises audio_file d = Some e ->
  transcribe audio_input model_size language d =
  (List.app [load_model model_size; makedirs "transcriptions"]
     (List.app eff0 (fst (get_chunks tmp audio_file d))),
   raised e).
Proof.
  intros H G. unfold transcribe. rewrite H, G.
  now destruct (get_chunks tmp audio_file d).
Qed.

(** A run without a chunk list processes nothing: its only event, if any,
    is the failure event. *)
Lemma transcribe_without_chunks (audio_input : AudioInput)
    (model_size language : string) (d : Z) :
  chunks_of audio_input d = None ->
  let tr := fst (transcribe audio_input model_size language d) in
  chunk_events tr = [] /\ files_written tr = [] /\ engine_calls tr = []
  /\ forall site ev,
       In (site, ev) (yields tr) ->
       site = input_failure /\ artifactPath ev = None.
Proof.
  unfold chunks_of. cbn zeta.
  pose proof (resolve_input_effects audio_input) as (Hy & Hf & He & _).
  destruct (resolve_input audio_input)
    as [eff0 [[[audio_file name] tmp]|e]] eqn:Hres; cbn [fst] in *.
  - destruct (get_chunks_effects tmp audio_file d) as (Gy & Gf & Ge).
    destruct (get_chunks_raises audio_file d) as [e|] eqn:G; [|discriminate].
    intros _. rewrite (transcribe_split_raised _ _ _ _ _ _ _ _ _ Hres G).
    cbn [fst]. unfold chunk_events.
    rewrite !yields_app, !files_written_app, !engine_calls_app.
    rewrite Hy, Hf, He, Gy, Gf, Ge. cbn. repeat split; tauto.
  - intros _. rewrite (transcribe_rejected _ _ _ _ _ _ Hres).
    cbn [fst]. unfold chunk_events.
    rewrite !yields_app, !files_written_app, !engine_calls_app.
    rewrite Hy, Hf, He. cbn. repeat split; trivial.
    + destruct H as [[= <- <-]|[]]. reflexivity.
    + destruct H as [[= <- <-]|[]]. reflexivity.
Qed.

Lemma resolved_file_name (audio_input : AudioInput) (eff0 : list Effect)
    (audio_file file_name : string) (tmp : nat) :
  resolve_input audio_input = (eff0, Ok (audio_file, file_name, tmp)) ->
  file_name = file_name_of audio_input.
Proof.
  destruct audio_input as [sr [data|]|path]; cbn.
  - destruct data as [|x data]; cbn; [discriminate|].
    destruct (wav_write_raises _ sr (x :: data)); [discriminate|].
    now intros [= _ _ <- _].
  - discriminate.
  - now intros [= _ _ <- _].
Qed.

(** A run with a chunk list is a prelude without events and the loop over
    the chunks; it ends there by an exception, of the engine or of the
    writing of the transcript, or goes on with the transcript file and the
    final event. *)
Lemma transcribe_resolved (audio_input : AudioInput)
    (model_size language : string) (d : Z) (chunks : list string) :
  chunks_of audio_input d = Some chunks ->
  exists prelude,
    yields prelude = [] /\ files_written prelude = []
    /\ engine_calls prelude = []
    /\ let run := process_chunks model_size language (List.length chunks)
                    (time_time 0) chunks 0 [] in
       let output_txt_path := transcript_path audio_input in
       (exists e,
          transcribe audio_input model_size language d
          = (List.app prelude (fst run), raised e)
          /\ (snd run = Raise e
              \/ exists transcript_lines,
                   snd run = Ok transcript_lines
                   /\ open_write_raises output_txt_path
                        (PyStr.join PyStr.newline transcript_lines) = Some e))
       \/ (exists transcript_lines,
             snd run = Ok transcript_lines
             /\ open_write_raises output_txt_path
                  (PyStr.join PyStr.newline transcript_lines) = None
             /\ transcribe audio_input model_size language d
                = (List.app prelude
                     (List.app (fst run)
                        [file_write output_txt_path
                           (PyStr.join PyStr.newline transcript_lines);
                         yield run_done
                           ("✅ Done in "
                              ++ format_time
                                   (fl (time_time (S (List.length chunks))
                                        - time_time 0)),
                            PyStr.join PyStr.newline transcript_lines,
                            Some output_txt_path)]),
                   returned)).
Proof.
  unfold chunks_of, transcribe, transcript_path.
  pose proof (resolve_input_effects audio_input) as (Hy & Hf & He & _).
  pose proof (resolved_file_name audio_input) as Hname.
  destruct (resolve_input audio_input) as [eff0 [[[audio_file name] tmp]|e]];
    [|discriminate].
  cbn [fst] in *. rewrite <- (Hname _ _ _ _ eq_refl). clear Hname.
  destruct (get_chunks_raises audio_file d); [discriminate|].
  intros [= <-].
  destruct (get_chunks_effects tmp audio_file d) as (Gy & Gf & Ge).
  destruct (get_chunks tmp audio_file d) as [eff1 chunks]. cbn [fst snd] in *.
  exists (List.app [load_model model_size; makedirs "transcriptions"]
            (List.app eff0 eff1)).
  rewrite !yields_app, !files_written_app, !engine_calls_app.
  rewrite Hy, Hf, He, Gy, Gf, Ge.
  repeat split.
  cbn zeta.
  destruct (process_chunks model_size language (List.length chunks)
              (time_time 0) chunks 0 []) as [eff2 [lines|e]];
    cbn [fst snd].
  - destruct (open_write_raises _ _) as [e|] eqn:Ew.
    + left. exists e. rewrite <- !app_assoc. split; [reflexivity|].
      right. exists lines. now split.
    + right. exists lines. rewrite <- !app_assoc. now repeat split.
  - left. exists e. rewrite <- !app_assoc. split; [reflexivity|now left].
Qed.

End Runs.

(** ** The time formatter *)

Section Formatter.

Lemma int_of_float_floor (x : Q) : (0 <= x)%Q -> int_of_float x = Qfloor x.
Proof.
  destruct x as [n p]. unfold Qle, int_of_float, Qfloor. cbn. intros H.
  apply Z.quot_div_nonneg; lia.
Qed.

Lemma whole_seconds_range (x : Q) :
  (0 <= x)%Q -> (x < 86400)%Q -> 0 <= Qfloor x < 86400.
Proof.
  intros H0 H1. split.
  - change 0 with (Qfloor 0). now apply Qfloor_resp_le.
  - apply Z.lt_nge. intros H.
    assert (H2 : (inject_Z 86400 <= x)%Q).
    { eapply Qle_trans; [|apply Qfloor_le].
      rewrite <- Zle_Qle. exact H. }
    apply (Qlt_irrefl x). eapply Qlt_le_trans; eassumption.
Qed.

(** Below one day [timedelta] prints no day count, and its hours, minutes
    and seconds are those of ["H:MM:SS"]. *)
Lemma str_timedelta_hmmss (n : Z) :
  0 <= n < 86400 -> str_timedelta n = hmmss n.
Proof.
  intros H. unfold str_timedelta, hmmss.
  rewrite (Z.div_small n 86400), (Z.mod_small n 86400) by lia.
  cbn [Z.eqb]. rewrite Z.div_div by lia. reflexivity.
Qed.

Lemma two_digits (n : Z) :
  0 <= n < 60 ->
  exists a b, PyStr.zero_padded 2 n = String a (String b EmptyString)
              /\ is_digit a = true /\ is_digit b = true.
Proof.
  intros H.
  assert (All : forallb
                  (fun k =>
                     match PyStr.zero_padded 2 (Z.of_nat k) with
                     | String a (String b EmptyString) =>
                         is_digit a && is_digit b
                     | _ => false
                     end) (seq 0 60) = true)
    by (vm_compute; reflexivity).
  rewrite forallb_forall in All.
  specialize (All (Z.to_nat n)).
  rewrite Z2Nat.id in All by lia.
  assert (In60 : In (Z.to_nat n) (seq 0 60)) by (apply in_seq; lia).
  specialize (All In60).
  destruct (PyStr.zero_padded 2 n) as [|a [|b [|]]]; try discriminate.
  apply andb_true_iff in All as [Ha Hb]. eauto.
Qed.

Lemma skip_digits_colon (hs rest : string) :
  all_digits hs = true ->
  skip_digits (hs ++ String ":" rest) = String ":" rest.
Proof.
  induction hs as [|h hs IH]; [reflexivity|].
  cbn [all_digits append skip_digits]. intros H.
  apply andb_true_iff in H as [-> H]. now apply IH.
Qed.

Lemma is_hmmss_intro (hs : string) (a b c d : ascii) :
  hs <> EmptyString -> all_digits hs = true ->
  is_digit a = true -> is_digit b = true ->
  is_digit c = true -> is_digit d = true ->
  is_hmmss (hs ++ ":" ++ String a (String b EmptyString)
            ++ ":" ++ String c (String d EmptyString)) = true.
Proof.
  intros Hne Hs Ha Hb Hc Hd.
  set (rest := String a (String b (String ":" (String c (String d EmptyString))))).
  change (is_hmmss (hs ++ String ":" rest) = true).
  pose proof (skip_digits_colon hs rest Hs) as E.
  destruct hs as [|h hs]; [congruence|].
  cbn [all_digits] in Hs. apply andb_true_iff in Hs as [Hh _].
  change (String h hs ++ String ":" rest)
    with (String h (hs ++ String ":" rest)) in *.
  unfold is_hmmss. rewrite E. unfold rest.
  now rewrite Hh, Ha, Hb, Hc, Hd.
Qed.

Lemma hours_digits (h : Z) :
  0 <= h < 24 ->
  PyStr.str_int h <> EmptyString /\ all_digits (PyStr.str_int h) = true.
Proof.
  intros H.
  assert (All : forallb
                  (fun k =>
                     match PyStr.str_int (Z.of_nat k) with
                     | EmptyString => false
                     | hs => all_digits hs
                     end) (seq 0 24) = true)
    by (vm_compute; reflexivity).
  rewrite forallb_forall in All.
  specialize (All (Z.to_nat h)).
  rewrite Z2Nat.id in All by lia.
  assert (In24 : In (Z.to_nat h) (seq 0 24)) by (apply in_seq; lia).
  specialize (All In24).
  destruct (PyStr.str_int h); [discriminate|].
  split; [discriminate|exact All].
Qed.

Lemma hmmss_shape (n : Z) : 0 <= n < 86400 -> is_hmmss (hmmss n) = true.
Proof.
  intros H. unfold hmmss.
  destruct (two_digits ((n / 60) mod 60)) as (a & b & -> & Ha & Hb);
    [apply Z.mod_pos_bound; lia|].
  destruct (two_digits (n mod 60)) as (c & d & -> & Hc & Hd);
    [apply Z.mod_pos_bound; lia|].
  destruct (hours_digits (n / 3600)) as (Hne & Hds);
    [split; [apply Z.div_pos; lia|apply Z.div_lt_upper_bound; lia]|].
  now apply is_hmmss_intro.
Qed.

Lemma format_time_hmmss (x : Q) :
  (0 <= x)%Q -> (x < 86400)%Q ->
  format_time x = hmmss (Qfloor x) /\ is_hmmss (format_time x) = true.
Proof.
  intros H0 H1. unfold format_time.
  rewrite int_of_float_floor by exact H0.
  pose proof (whole_seconds_range x H0 H1) as R.
  rewrite str_timedelta_hmmss by exact R.
  split; [reflexivity|now apply hmmss_shape].
Qed.

End Formatter.

(** ** The sample world is a world the platform allows *)

Lemma sample_listing (pieces : nat) : listdir_complete (Sample.world pieces).
Proof. intros names. cbn. symmetry. apply Permutation_rev. Qed.

Lemma sample_rounding (pieces : nat) : rounding (Sample.world pieces).
Proof. split; cbn; [trivial|reflexivity]. Qed.

(** ** Properties of the pipeline *)

Section Properties.

Context {W : World}.

Lemma transcribe_chunk_events (audio_input : AudioInput)
    (model_size language : string) (d : Z) (chunks : list string) :
  chunks_of audio_input d = Some chunks ->
  chunk_events (fst (transcribe audio_input model_size language d))
  = chunk_events
      (fst (process_chunks model_size language (List.length chunks)
              (time_time 0) chunks 0 [])).
Proof.
  intros Hc.
  destruct (transcribe_resolved audio_input model_size language d chunks Hc)
    as (prelude & Hy & _ & _ & Hrun).
  cbn zeta in Hrun.
  assert (Hp : chunk_events prelude = [])
    by (unfold chunk_events; now rewrite Hy).
  destruct Hrun as [(e & -> & _)|(lines & _ & _ & ->)]; cbn [fst];
    rewrite !chunk_events_app, Hp; cbn [List.app]; [reflexivity|].
  unfold chunk_events at 2. cbn. now rewrite app_nil_r.
Qed.

(** A run that yields its final event resolved its input and finished
    the loop; it wrote one file, and the final event is the last of its
    events, after one event per chunk. *)
Lemma final_event_run (audio_input : AudioInput)
    (model_size language : string) (d : Z) (ev : ProgressEvent) :
  let tr := fst (transcribe audio_input model_size language d) in
  In (yield run_done ev) tr ->
  exists chunks transcript_lines output_txt_path,
    chunks_of audio_input d = Some chunks
    /\ transcript_lines
       = List.concat (map (chunk_lines model_size language) chunks)
    /\ files_written tr
       = [(output_txt_path, PyStr.join PyStr.newline transcript_lines)]
    /\ previewText ev = PyStr.join PyStr.newline transcript_lines
    /\ artifactPath ev = Some output_txt_path
    /\ List.length (chunk_events tr) = List.length chunks
    /\ yields tr
       = List.app (map (pair chunk_done) (chunk_events tr)) [(run_done, ev)]
    /\ output_txt_path = transcript_path audio_input.
Proof.
  cbn zeta. intros Hin. apply in_yields in Hin.
  destruct (chunks_of audio_input d) as [chunks|] eqn:Hc.
  - pose proof (transcribe_chunk_events audio_input model_size language d
                  chunks Hc) as Hce.
    destruct (transcribe_resolved audio_input model_size language d chunks Hc)
      as (prelude & Hy & Hf & _ & Hrun).
    cbn zeta in Hrun.
    set (run := process_chunks model_size language (List.length chunks)
                  (time_time 0) chunks 0 []) in *.
    destruct (loop_quiet model_size language (List.length chunks)
                (time_time 0) chunks 0 []) as (Lf & _ & Ly).
    fold run in Lf, Ly.
    destruct Hrun as [(e & Hrun & _)|(lines & E & _ & Hrun)];
      rewrite Hrun in *; cbn [fst] in *.
    + rewrite !yields_app, Hy, Ly in Hin. cbn in Hin.
      apply in_map_iff in Hin as (ev' & Hev & _). discriminate.
    + rewrite !yields_app, Hy, Ly in Hin. cbn in Hin.
      apply in_app_or in Hin as [Hin|[Hin|[]]].
      * apply in_map_iff in Hin as (ev' & Hev & _). discriminate.
      * injection Hin as <-.
        apply loop_finished in E as (_ & -> & Hn & _).
        cbn [List.app] in *.
        exists chunks,
          (List.concat (map (chunk_lines model_size language) chunks)),
          (transcript_path audio_input).
        repeat split.
        -- rewrite !files_written_app, Hf, Lf. reflexivity.
        -- rewrite Hce. exact Hn.
        -- rewrite !yields_app, Hy, Ly, Hce. reflexivity.
  - destruct (transcribe_without_chunks audio_input model_size language d Hc)
      as (_ & _ & _ & Hsite).
    apply Hsite in Hin as (Hin & _). discriminate.
Qed.

(** C1. If the run yields its final event, exactly one text file was
    written, its content is the transcript text the event carries, the
    event names that file, and the text is the newline-join of the
    display lines of all chunks in chunk order. *)
Theorem persisted_transcript_is_final_text (audio_input : AudioInput)
    (model_size language : string) (d : Z)
    (status_text text : string) (artifact : option string) :
  In (yield run_done (status_text, text, artifact))
     (fst (transcribe audio_input model_size language d)) ->
  exists chunks output_txt_path,
    chunks_of audio_input d = Some chunks
    /\ files_written (fst (transcribe audio_input model_size language d))
       = [(output_txt_path, text)]
    /\ artifact = Some output_txt_path
    /\ text = PyStr.join PyStr.newline
                (List.concat (map (chunk_lines model_size language) chunks)).
Proof.
  intros Hin.
  destruct (final_event_run _ _ _ _ _ Hin)
    as (chunks & lines & path & Hc & -> & Hf & Hp & Ha & _).
  cbn in Hp, Ha. subst text artifact.
  exists chunks, path. repeat split; trivial.
Qed.

(** C2, as the code has it. When the input resolves, the segmenting
    returns, the engine answers on every chunk and the transcript file can
    be written, the run yields as many chunk events as there are chunks and
    exactly one terminal event, the last effect of the run, after the
    engine has been called on every chunk. *)
Theorem one_event_per_chunk_then_final (audio_input : AudioInput)
    (model_size language : string) (d : Z) (chunks : list string) :
  chunks_of audio_input d = Some chunks ->
  (forall chunk, In chunk chunks -> engine_succeeds model_size language chunk) ->
  open_write_raises (transcript_path audio_input)
    (PyStr.join PyStr.newline
       (List.concat (map (chunk_lines model_size language) chunks))) = None ->
  let run := transcribe audio_input model_size language d in
  List.length (chunk_events (fst run)) = List.length chunks
  /\ (exists ev, terminal_events (fst run) = [(run_done, ev)])
  /\ (exists before ev,
        fst run = List.app before [yield run_done ev]
        /\ engine_calls before = chunks
        /\ yields before = map (pair chunk_done) (chunk_events (fst run)))
  /\ snd run = returned.
Proof.
  intros Hc Hall Hwrite. cbn zeta.
  rewrite (transcribe_chunk_events _ _ _ _ _ Hc).
  destruct (transcribe_resolved audio_input model_size language d chunks Hc)
    as (prelude & Hy & _ & He & Hrun).
  cbn zeta in Hrun.
  set (loop := process_chunks model_size language (List.length chunks)
                 (time_time 0) chunks 0 []) in *.
  destruct (loop_completes model_size language (List.length chunks)
              (time_time 0) chunks 0 [] Hall) as (lines & E).
  fold loop in E.
  destruct (loop_quiet model_size language (List.length chunks)
              (time_time 0) chunks 0 []) as (_ & _ & Ly).
  destruct (loop_finished model_size language (List.length chunks)
              (time_time 0) chunks 0 [] lines E) as (_ & Hl & Hn & Hcalls).
  fold loop in Ly, Hn, Hcalls. cbn [List.app] in Hl. subst lines.
  destruct Hrun as [(e & _ & [Hr|(lines & Hr & Hw)])|(lines & Hr & _ & Hrun)];
    try congruence.
  rewrite Hrun. cbn [fst snd].
  repeat split.
  - exact Hn.
  - eexists. rewrite !terminal_events_app. unfold terminal_events at 1 2.
    rewrite Hy, Ly. cbn [filter List.app].
    rewrite chunk_done_not_terminal. reflexivity.
  - exists (List.app prelude
              (List.app (fst loop)
                 [file_write (transcript_path audio_input)
                    (PyStr.join PyStr.newline lines)])).
    eexists. repeat split.
    + now rewrite <- !app_assoc.
    + rewrite !engine_calls_app, He, Hcalls. cbn. now rewrite app_nil_r.
    + rewrite !yields_app, Hy, Ly. cbn. now rewrite app_nil_r.
Qed.

(** C3. A recording whose samples are absent or empty makes the run yield
    one event only, the failure event, with an error status, an empty
    preview and no artifact; no chunk list is made, no command is run, the
    engine is not called and no file is written. *)
Theorem empty_recording_fails_once (sr : Z) (audio_np : option (list Z))
    (model_size language : string) (d : Z) :
  audio_np = None \/ audio_np = Some [] ->
  let run := transcribe (Recorded sr audio_np) model_size language d in
  yields (fst run)
  = [(input_failure,
      ("❌ Recording failed: No audio data received from microphone.",
       "", None))]
  /\ chunk_events (fst run) = []
  /\ chunks_of (Recorded sr audio_np) d = None
  /\ commands_run (fst run) = []
  /\ engine_calls (fst run) = []
  /\ files_written (fst run) = []
  /\ snd run = returned.
Proof.
  intros H. cbn zeta.
  assert (Hres : resolve_input (Recorded sr audio_np)
                 = ([], Raise "No audio data received from microphone."))
    by (destruct H as [->| ->]; reflexivity).
  assert (Hc : chunks_of (Recorded sr audio_np) d = None)
    by (unfold chunks_of; now rewrite Hres).
  rewrite (transcribe_rejected _ _ _ _ _ _ Hres). now cbn.
Qed.

(** C4. After chunk [i] of [total_chunks], with a non-negative elapsed
    time, the average is the elapsed time divided by [i + 1] and the
    estimate is the average times the number of chunks left, each as the
    float operation rounds it (exactly so when nothing is rounded); both
    are non-negative, and the estimate is zero after the last chunk. *)
Theorem progress_estimate (i total_chunks : nat) (elapsed : Q) :
  rounding W -> (i < total_chunks)%nat -> (0 <= elapsed)%Q ->
  let avg := avg_time elapsed i in
  let remaining := eta avg total_chunks i in
  avg = fl (elapsed / inject_Z (Z.of_nat i + 1))
  /\ remaining
     = fl (avg * inject_Z (Z.of_nat total_chunks - Z.of_nat i - 1))
  /\ ((forall x, (fl x == x)%Q) ->
      (avg == elapsed / inject_Z (Z.of_nat i + 1))%Q
      /\ (remaining
          == avg * inject_Z (Z.of_nat total_chunks - Z.of_nat i - 1))%Q)
  /\ (0 <= avg)%Q
  /\ (0 <= remaining)%Q
  /\ (i = (total_chunks - 1)%nat -> (remaining == 0)%Q).
Proof.
  intros [Hmono Hzero] Hi Hel. cbn zeta.
  assert (Hpos : forall x, (0 <= x)%Q -> (0 <= fl x)%Q).
  { intros x Hx. rewrite <- Hzero. now apply Hmono. }
  assert (Havg : (0 <= avg_time elapsed i)%Q).
  { apply Hpos. unfold Qdiv. apply Qmult_le_0_compat; [exact Hel|].
    apply Qinv_le_0_compat. change 0%Q with (inject_Z 0).
    rewrite <- Zle_Qle. lia. }
  repeat split; trivial.
  - unfold avg_time. auto.
  - unfold eta. auto.
  - apply Hpos. apply Qmult_le_0_compat; [exact Havg|].
    change 0%Q with (inject_Z 0). rewrite <- Zle_Qle. lia.
  - intros ->. unfold eta.
    replace (Z.of_nat total_chunks - Z.of_nat (total_chunks - 1) - 1)
      with 0 by lia.
    assert (E : (avg_time elapsed (total_chunks - 1) * inject_Z 0 == 0)%Q)
      by apply Qmult_0_r.
    apply Qle_antisym.
    + rewrite <- Hzero. apply Hmono. rewrite E. apply Qle_refl.
    + apply Hpos. rewrite E. apply Qle_refl.
Qed.

(** C8. The preview of the event yielded after chunk [k] is the
    newline-join of the last ten lines accumulated through chunk [k], in
    order: all of them when there are fewer than ten. *)
Theorem preview_is_last_ten_lines (audio_input : AudioInput)
    (model_size language : string) (d : Z) (chunks : list string)
    (k : nat) (ev : ProgressEvent) :
  chunks_of audio_input d = Some chunks ->
  nth_error (chunk_events (fst (transcribe audio_input model_size language d))) k
  = Some ev ->
  (k < List.length chunks)%nat
  /\ exists older shown,
       lines_through model_size language chunks k = List.app older shown
       /\ List.length shown
          = Nat.min 10 (List.length (lines_through model_size language chunks k))
       /\ previewText ev = PyStr.join PyStr.newline shown.
Proof.
  intros Hc Hk. rewrite (transcribe_chunk_events _ _ _ _ _ Hc) in Hk.
  split.
  - eapply Nat.lt_le_trans; [|apply loop_events_bound].
    apply nth_error_Some. rewrite Hk. discriminate.
  - apply loop_event in Hk. cbn zeta in Hk. cbn [List.app Nat.add] in Hk.
    destruct (last_items_suffix 10 (lines_through model_size language chunks k))
      as (Hsplit & Hlen).
    eexists _, _. split; [exact Hsplit|]. split; [exact Hlen|].
    now rewrite Hk.
Qed.

(** The status of that event shows the estimate of C4, computed from the
    elapsed time read in iteration [k]. *)
Lemma status_shows_estimate (audio_input : AudioInput)
    (model_size language : string) (d : Z) (chunks : list string)
    (k : nat) (ev : ProgressEvent) :
  chunks_of audio_input d = Some chunks ->
  nth_error (chunk_events (fst (transcribe audio_input model_size language d))) k
  = Some ev ->
  status ev
  = progress_status k (List.length chunks) (elapsed_at k)
      (eta (avg_time (elapsed_at k) k) (List.length chunks) k)
  /\ artifactPath ev = None.
Proof.
  intros Hc Hk. rewrite (transcribe_chunk_events _ _ _ _ _ Hc) in Hk.
  apply loop_event in Hk. cbn zeta in Hk. cbn [Nat.add] in Hk.
  now rewrite Hk.
Qed.

(** C7. With a chunk duration of zero no segmentation is done: the chunk
    list is the resolved input path alone, at index 0, and the run starts
    no command. *)
Theorem zero_duration_single_chunk (tmp : nat) (audio_file : string)
    (audio_input : AudioInput) (model_size language : string) :
  get_chunks tmp audio_file 0 = ([], [audio_file])
  /\ nth_error (snd (get_chunks tmp audio_file 0)) 0 = Some audio_file
  /\ chunks_of (FilePath audio_file) 0 = Some [audio_file]
  /\ commands_run (fst (transcribe audio_input model_size language 0)) = [].
Proof.
  repeat split.
  unfold transcribe.
  pose proof (resolve_input_effects audio_input) as (_ & _ & _ & Hc0).
  destruct (resolve_input audio_input) as [eff0 [[[file name] t]|e]];
    cbn [fst] in Hc0.
  - cbn [get_chunks get_chunks_raises Z.gtb Z.compare List.length].
    destruct (loop_quiet model_size language 1 (time_time 0) [file] 0 [])
      as (_ & Hc2 & _).
    destruct (process_chunks model_size language 1 (time_time 0) [file] 0 [])
      as [eff2 [lines|e]]; cbn [fst] in *;
      [destruct (open_write_raises _ _)|]; cbn [fst];
      rewrite !commands_run_app, Hc0, Hc2; reflexivity.
  - cbn [fst]. rewrite !commands_run_app, Hc0. reflexivity.
Qed.

(** C10. A negative chunk duration is treated as zero: no segmentation,
    the resolved input path as the only chunk, and the same run. *)
Theorem negative_duration_as_zero (d : Z) (tmp : nat) (audio_file : string)
    (audio_input : AudioInput) (model_size language : string) :
  d < 0 ->
  get_chunks tmp audio_file d = ([], [audio_file])
  /\ chunks_of audio_input d = chunks_of audio_input 0
  /\ transcribe audio_input model_size language d
     = transcribe audio_input model_size language 0.
Proof.
  intros Hd.
  assert (G : forall t f, get_chunks t f d = get_chunks t f 0).
  { intros t f. unfold get_chunks.
    rewrite Z.gtb_ltb. replace (0 <? d) with false
      by (symmetry; apply Z.ltb_ge; lia).
    reflexivity. }
  assert (R : forall f, get_chunks_raises f d = get_chunks_raises f 0).
  { intros f. unfold get_chunks_raises.
    rewrite Z.gtb_ltb. replace (0 <? d) with false
      by (symmetry; apply Z.ltb_ge; lia).
    reflexivity. }
  repeat split.
  - now rewrite G.
  - unfold chunks_of.
    destruct (resolve_input audio_input) as [eff0 [[[file name] t]|e]];
      [now rewrite G, R|reflexivity].
  - unfold transcribe.
    destruct (resolve_input audio_input) as [eff0 [[[file name] t]|e]];
      [now rewrite G, R|reflexivity].
Qed.

(** C6, as the code has it. When the input resolves and either the chunk
    duration is not positive or the splitting tool wrote at least one
    segment file, the chunk list is not empty; and if the run yields its
    final event, a chunk event was yielded first and the final event is
    the last event. *)
Theorem chunk_list_nonempty_when_segments_written (audio_input : AudioInput)
    (model_size language : string) (d : Z)
    (eff0 : list Effect) (audio_file file_name : string) (tmp : nat) :
  listdir_complete W ->
  resolve_input audio_input = (eff0, Ok (audio_file, file_name, tmp)) ->
  d <= 0 \/ (0 < ffmpeg_segments audio_file d)%nat ->
  let tr := fst (transcribe audio_input model_size language d) in
  exists chunk rest,
    chunks_of audio_input d = Some (chunk :: rest)
    /\ forall ev,
         In (yield run_done ev) tr ->
         exists first later,
           chunk_events tr = first :: later
           /\ yields tr
              = (chunk_done, first)
                  :: List.app (map (pair chunk_done) later) [(run_done, ev)].
Proof.
  intros Hlist Hres Hd. cbn zeta.
  assert (Hc : exists chunk rest,
             chunks_of audio_input d = Some (chunk :: rest)).
  { unfold chunks_of, get_chunks, get_chunks_raises.
    rewrite Hres.
    destruct (d >? 0) eqn:Hpos; [|cbn; eauto].
    destruct Hd as [Hd|Hd]; [apply Z.gtb_lt in Hpos; lia|].
    pose proof (split_audio_length Hlist tmp audio_file d) as Hlen.
    assert (Hstart : split_audio_raises audio_file d = None).
    { unfold split_audio_raises. unfold ffmpeg_segments in Hd.
      destruct (run_ffmpeg audio_file d); [reflexivity|lia]. }
    rewrite Hstart.
    destruct (snd (split_audio tmp audio_file d)) as [|chunk rest];
      [cbn in Hlen; lia|eauto]. }
  destruct Hc as (chunk & rest & Hc). exists chunk, rest.
  split; [exact Hc|].
  intros ev Hin.
  destruct (final_event_run _ _ _ _ _ Hin)
    as (chunks & lines & path & Hc' & _ & _ & _ & _ & Hn & Hy & _).
  rewrite Hc in Hc'. injection Hc' as <-.
  destruct (chunk_events (fst (transcribe audio_input model_size language d)))
    as [|first later]; [discriminate|].
  exists first, later. split; [reflexivity|exact Hy].
Qed.


End Properties.

(** ** The pipeline on concrete inputs *)

(** C5. A source cut in 1001 segments: the file of segment 1000 is
    named ["chunk_1000.wav"], which sorts before ["chunk_101.wav"], so the
    sorted chunk list has it at index 101 and is not the order of the
    recording. *)
Theorem three_digit_counter_misorders_long_input :
  let chunks := snd (split_audio (W := Sample.world 1001) 0 "talk.mp3" 10) in
  List.length chunks = 1001%nat
  /\ nth_error chunks 100 = Some "/tmp/tmp0/chunk_100.wav"
  /\ nth_error chunks 101 = Some "/tmp/tmp0/chunk_1000.wav"
  /\ nth_error chunks 102 = Some "/tmp/tmp0/chunk_101.wav"
  /\ nth_error chunks 1000 = Some "/tmp/tmp0/chunk_999.wav"
  /\ chunks <> map (fun k => os_path_join "/tmp/tmp0" (segment_name k))
                  (seq 0 1001).
Proof.
  cbn zeta. rewrite (split_audio_chunks (sample_listing 1001)).
  change (ffmpeg_segments (W := Sample.world 1001) "talk.mp3" 10)
    with 1001%nat.
  change (mkdtemp (World := Sample.world 1001) 0) with "/tmp/tmp0".
  repeat split; try (vm_compute; reflexivity).
  intros H. apply (f_equal (fun l => nth_error l 101)) in H.
  vm_compute in H. discriminate.
Qed.

(** C6 fails when the tool writes no segment file: the input resolves, the
    chunk list is empty, and the final event is the only event. *)
Lemma no_chunk_when_tool_writes_nothing :
  let run := transcribe (W := Sample.world 0) (FilePath "talk.mp3") "base" "en" 120 in
  resolve_input (W := Sample.world 0) (FilePath "talk.mp3")
  = ([], Ok ("talk.mp3", "talk", 0%nat))
  /\ chunks_of (W := Sample.world 0) (FilePath "talk.mp3") 120 = Some []
  /\ chunk_events (fst run) = []
  /\ yields (fst run)
     = [(run_done, ("✅ Done in 0:00:03", "", Some "transcriptions/talk.txt"))].
Proof. cbn zeta. repeat split; vm_compute; reflexivity. Qed.

(** C2 fails when the transcript cannot be written and when the tool
    cannot be started: the input resolves and the engine answers on every
    chunk, yet the run ends by an exception and yields no terminal event. *)
Lemma no_final_event_when_write_or_tool_fails :
  (let W := Sample.read_only_world 2 in
   let run := transcribe (FilePath "talk.mp3") "base" "en" 120 in
   resolve_input (FilePath "talk.mp3") = ([], Ok ("talk.mp3", "talk", 0%nat))
   /\ (forall chunk, engine_succeeds "base" "en" chunk)
   /\ engine_calls (fst run)
      = ["/tmp/tmp0/chunk_000.wav"; "/tmp/tmp0/chunk_001.wav"]
   /\ List.length (chunk_events (fst run)) = 2%nat
   /\ terminal_events (fst run) = []
   /\ files_written (fst run) = []
   /\ snd run
      = raised "[Errno 13] Permission denied: 'transcriptions/talk.txt'")
  /\ (let W := Sample.no_tool_world in
      let run := transcribe (FilePath "talk.mp3") "base" "en" 120 in
      resolve_input (FilePath "talk.mp3") = ([], Ok ("talk.mp3", "talk", 0%nat))
      /\ (forall chunk, engine_succeeds "base" "en" chunk)
      /\ yields (fst run) = []
      /\ snd run = raised "[Errno 2] No such file or directory: 'ffmpeg'").
Proof.
  cbv zeta. repeat split; try (vm_compute; reflexivity);
    intros chunk; eexists; reflexivity.
Qed.

(** C9 fails from one day on: the formatter prints a day count, so the
    line is not of the shape ["[H:MM:SS - H:MM:SS]: text"]. *)
Lemma display_line_beyond_one_day :
  let seg := mkSegment 90000 90005 "late" in
  display_line seg = "[1 day, 1:00:00 - 1 day, 1:00:05]: late"
  /\ is_hmmss (format_time (seg_start seg)) = false
  /\ spec_display_line seg = "[25:00:00 - 25:00:05]: late"
  /\ display_line seg <> spec_display_line seg.
Proof.
  cbn zeta. repeat split; try (vm_compute; reflexivity).
  vm_compute. discriminate.
Qed.

(** ** The theorems at work in the sample world *)

(** A file processed whole: the final event and the file hold the two
    lines of the single chunk. *)
Lemma persisted_transcript_witness :
  let W := Sample.world 2 in
  let text :=
    PyStr.join PyStr.newline (map display_line (Sample.segments_of "talk.mp3")) in
  In (yield run_done ("✅ Done in 0:00:06", text, Some "transcriptions/talk.txt"))
     (fst (transcribe (FilePath "talk.mp3") "base" "en" 0))
  /\ exists chunks output_txt_path,
       chunks_of (FilePath "talk.mp3") 0 = Some chunks
       /\ files_written (fst (transcribe (FilePath "talk.mp3") "base" "en" 0))
          = [(output_txt_path, text)]
       /\ Some "transcriptions/talk.txt" = Some output_txt_path
       /\ text = PyStr.join PyStr.newline
                   (List.concat (map (chunk_lines "base" "en") chunks)).
Proof.
  cbn zeta.
  assert (H : In (yield run_done
                    ("✅ Done in 0:00:06",
                     PyStr.join PyStr.newline
                       (map display_line (Sample.segments_of "talk.mp3")),
                     Some "transcriptions/talk.txt"))
                (fst (transcribe (W := Sample.world 2)
                        (FilePath "talk.mp3") "base" "en" 0))).
  { vm_compute. repeat (first [left; reflexivity | right]). }
  split; [exact H|].
  exact (persisted_transcript_is_final_text (W := Sample.world 2)
           (FilePath "talk.mp3") "base" "en" 0 _ _ _ H).
Defined.

(** A file cut in two chunks: two chunk events, then the final event. *)
Lemma one_event_per_chunk_witness :
  let W := Sample.world 2 in
  let run := transcribe (FilePath "talk.mp3") "base" "en" 120 in
  let chunks := ["/tmp/tmp0/chunk_000.wav"; "/tmp/tmp0/chunk_001.wav"] in
  List.length (chunk_events (fst run)) = List.length chunks
  /\ (exists ev, terminal_events (fst run) = [(run_done, ev)])
  /\ (exists before ev,
        fst run = List.app before [yield run_done ev]
        /\ engine_calls before = chunks
        /\ yields before = map (pair chunk_done) (chunk_events (fst run)))
  /\ snd run = returned.
Proof.
  cbn zeta.
  apply (one_event_per_chunk_then_final (W := Sample.world 2)
           (FilePath "talk.mp3") "base" "en" 120
           ["/tmp/tmp0/chunk_000.wav"; "/tmp/tmp0/chunk_001.wav"]).
  - vm_compute. reflexivity.
  - intros chunk _. eexists. reflexivity.
  - reflexivity.
Defined.

(** A recording without samples. *)
Lemma empty_recording_witness :
  let W := Sample.world 2 in
  let run := transcribe (Recorded 16000 (Some [])) "base" "en" 120 in
  yields (fst run)
  = [(input_failure,
      ("❌ Recording failed: No audio data received from microphone.",
       "", None))]
  /\ chunk_events (fst run) = []
  /\ chunks_of (Recorded 16000 (Some [])) 120 = None
  /\ commands_run (fst run) = []
  /\ engine_calls (fst run) = []
  /\ files_written (fst run) = []
  /\ snd run = returned.
Proof.
  cbn zeta.
  apply (empty_recording_fails_once (W := Sample.world 2)
           16000 (Some []) "base" "en" 120).
  right. reflexivity.
Defined.

(** The estimate after the second of three chunks, six seconds in. *)
Lemma progress_estimate_witness :
  let W := Sample.world 3 in
  (avg_time 6 1 == 3)%Q /\ (eta (avg_time 6 1) 3 1 == 3)%Q
  /\ (0 <= avg_time 6 1)%Q /\ (0 <= eta (avg_time 6 1) 3 1)%Q.
Proof.
  cbn zeta.
  destruct (progress_estimate (W := Sample.world 3) 1 3 6) as (_ & _ & _ & Ha & He & _).
  - apply sample_rounding.
  - lia.
  - unfold Qle. simpl. lia.
  - repeat split; trivial; vm_compute; reflexivity.
Defined.

(** Six chunks of two lines each: after the last chunk twelve lines are
    accumulated and the preview shows ten. *)
Lemma preview_witness :
  let W := Sample.world 6 in
  exists ev,
    nth_error
      (chunk_events (fst (transcribe (FilePath "talk.mp3") "base" "en" 120))) 5
    = Some ev
    /\ exists older shown,
         lines_through "base" "en"
           (map (fun k => os_path_join "/tmp/tmp0" (segment_name k)) (seq 0 6)) 5
         = List.app older shown
         /\ List.length shown = 10%nat
         /\ previewText ev = PyStr.join PyStr.newline shown.
Proof.
  cbn zeta.
  destruct (nth_error
              (chunk_events
                 (fst (transcribe (W := Sample.world 6)
                         (FilePath "talk.mp3") "base" "en" 120))) 5)
    as [ev|] eqn:Hk; [|vm_compute in Hk; discriminate].
  exists ev. split; [reflexivity|].
  destruct (preview_is_last_ten_lines (W := Sample.world 6)
              (FilePath "talk.mp3") "base" "en" 120
              (map (fun k => os_path_join "/tmp/tmp0" (segment_name k)) (seq 0 6))
              5 ev)
    as (_ & older & shown & Hsplit & Hlen & Hprev).
  - vm_compute. reflexivity.
  - exact Hk.
  - exists older, shown. split; [exact Hsplit|]. split; [|exact Hprev].
    rewrite Hlen. vm_compute. reflexivity.
Defined.

(** A file cut in two: the chunk list is not empty and the final event
    comes after a chunk event. *)
Lemma chunk_list_nonempty_witness :
  let W := Sample.world 2 in
  let tr := fst (transcribe (FilePath "talk.mp3") "base" "en" 120) in
  exists chunk rest,
    chunks_of (FilePath "talk.mp3") 120 = Some (chunk :: rest)
    /\ forall ev,
         In (yield run_done ev) tr ->
         exists first later,
           chunk_events tr = first :: later
           /\ yields tr
              = (chunk_done, first)
                  :: List.app (map (pair chunk_done) later) [(run_done, ev)].
Proof.
  cbn zeta.
  apply (chunk_list_nonempty_when_segments_written (W := Sample.world 2)
           (FilePath "talk.mp3") "base" "en" 120 [] "talk.mp3" "talk" 0).
  - apply sample_listing.
  - reflexivity.
  - right. vm_compute. lia.
Defined.


(** A chunk duration of minus five seconds. *)
Lemma negative_duration_witness :
  let W := Sample.world 2 in
  get_chunks 0 "talk.mp3" (-5) = ([], ["talk.mp3"])
  /\ chunks_of (FilePath "talk.mp3") (-5) = chunks_of (FilePath "talk.mp3") 0
  /\ transcribe (FilePath "talk.mp3") "base" "en" (-5)
     = transcribe (FilePath "talk.mp3") "base" "en" 0.
Proof.
  cbn zeta.
  apply (negative_duration_as_zero (W := Sample.world 2) (-5) 0 "talk.mp3"
           (FilePath "talk.mp3") "base" "en").
  lia.
Defined.

(** The formatter, the stripping and the padding on a few values. *)
Example format_time_demo :
  format_time (90000.5) = "1 day, 1:00:00"
  /\ format_time (-(1 # 2)) = "0:00:00"
  /\ format_time (-(3 # 2)) = "-1 day, 23:59:59"
  /\ format_time 172800 = "2 days, 0:00:00"
  /\ PyStr.strip (" hi " ++ PyStr.bytes [226; 128; 175]%nat) = "hi"
  /\ PyStr.zero_padded 3 7 = "007"
  /\ PyStr.zero_padded 3 1000 = "1000".
Proof. repeat split; vm_compute; reflexivity. Qed.


(** ** More on the loop: failure, artifacts, the trace in full *)

Section Outcomes.

Context {W : World}.

(** The run written out, for an input that resolved. *)
Lemma transcribe_resolved_at (audio_input : AudioInput)
    (model_size language : string) (d : Z)
    (eff0 : list Effect) (audio_file file_name : string) (tmp : nat) :
  resolve_input audio_input = (eff0, Ok (audio_file, file_name, tmp)) ->
  let setup := [load_model model_size; makedirs "transcriptions"] in
  let output_txt_path := "transcriptions/" ++ file_name ++ ".txt" in
  let eff1 := fst (get_chunks tmp audio_file d) in
  let chunks := snd (get_chunks tmp audio_file d) in
  let run := process_chunks model_size language (List.length chunks)
               (time_time 0) chunks 0 [] in
  transcribe audio_input model_size language d =
  match get_chunks_raises audio_file d with
  | Some e => (List.app setup (List.app eff0 eff1), raised e)
  | None =>
      match snd run with
      | Raise e =>
          (List.app setup (List.app eff0 (List.app eff1 (fst run))), raised e)
      | Ok transcript_lines =>
          match open_write_raises output_txt_path
                  (PyStr.join PyStr.newline transcript_lines) with
          | Some e =>
              (List.app setup (List.app eff0 (List.app eff1 (fst run))),
               raised e)
          | None =>
              (List.app setup
                 (List.app eff0
                    (List.app eff1
                       (List.app (fst run)
                          [file_write output_txt_path
                             (PyStr.join PyStr.newline transcript_lines);
                           yield run_done
                             ("✅ Done in "
                                ++ format_time
                                     (fl (time_time (S (List.length chunks))
                                          - time_time 0)),
                              PyStr.join PyStr.newline transcript_lines,
                              Some output_txt_path)]))),
               returned)
          end
      end
  end.
Proof.
  intros Hres. cbv zeta. unfold transcribe. rewrite Hres.
  destruct (get_chunks tmp audio_file d) as [eff1 chunks]. cbn [fst snd].
  destruct (get_chunks_raises audio_file d); [reflexivity|].
  now destruct (process_chunks model_size language (List.length chunks)
                  (time_time 0) chunks 0 []) as [eff2 [lines|e]].
Qed.

Lemma chunks_of_resolved (audio_input : AudioInput) (d : Z)
    (eff0 : list Effect) (audio_file file_name : string) (tmp : nat) :
  resolve_input audio_input = (eff0, Ok (audio_file, file_name, tmp)) ->
  get_chunks_raises audio_file d = None ->
  chunks_of audio_input d = Some (snd (get_chunks tmp audio_file d)).
Proof. intros Hres G. unfold chunks_of. now rewrite Hres, G. Qed.

(** The loop up to the first chunk on which the engine raises. *)
Lemma loop_fails_at (model_size language : string) (total_chunks : nat)
    (start_time : Q) (chunks : list string) :
  forall i acc k chunk e,
    nth_error chunks k = Some chunk ->
    (forall c, In c (firstn k chunks) -> engine_succeeds model_size language c) ->
    model_transcribe model_size chunk language = engine_raises e ->
    let run := process_chunks model_size language total_chunks start_time
                 chunks i acc in
    snd run = Raise e
    /\ List.length (chunk_events (fst run)) = k
    /\ engine_calls (fst run) = firstn (S k) chunks.
Proof.
  induction chunks as [|c rest IH]; intros i acc k chunk e Hk Hok Hraise;
    [now destruct k|].
  destruct k as [|k]; cbn [nth_error] in Hk.
  - injection Hk as ->. cbn zeta.
    rewrite (loop_raise _ _ _ _ _ _ _ _ _ Hraise). now cbn.
  - destruct (Hok c) as (segments & Hs); [now left|].
    cbn zeta. rewrite (loop_step _ _ _ _ _ _ _ _ _ Hs). cbn zeta. cbn [fst snd].
    destruct (IH (S i) (List.app acc (map display_line (get_segments segments)))
                k chunk e Hk) as (Hr & Hn & Hc); trivial.
    { intros c' Hc'. apply Hok. now right. }
    cbn zeta in Hr, Hn, Hc. repeat split.
    + exact Hr.
    + unfold chunk_events in *. cbn. now rewrite Hn.
    + cbn [engine_calls]. rewrite Hc. reflexivity.
Qed.

(** Every event of the loop is yielded without an artifact. *)
Lemma loop_events_no_artifact (model_size language : string)
    (total_chunks : nat) (start_time : Q) (chunks : list string)
    (i : nat) (acc : list string) (ev : ProgressEvent) :
  In ev (chunk_events
           (fst (process_chunks model_size language total_chunks start_time
                   chunks i acc))) ->
  artifactPath ev = None.
Proof.
  intros Hin. apply In_nth_error in Hin as (k & Hk).
  apply loop_event in Hk. cbn zeta in Hk. now rewrite Hk.
Qed.

(** X1. When the engine raises on a chunk after answering on all chunks
    before it, the run ends by that exception: it has yielded one event per
    chunk before the failing one, called the engine on the chunks up to and
    including the failing one, written no file and yielded no terminal
    event. *)
Theorem engine_failure_aborts_run (audio_input : AudioInput)
    (model_size language : string) (d : Z) (chunks : list string)
    (k : nat) (chunk e : string) :
  chunks_of audio_input d = Some chunks ->
  nth_error chunks k = Some chunk ->
  (forall c, In c (firstn k chunks) -> engine_succeeds model_size language c) ->
  model_transcribe model_size chunk language = engine_raises e ->
  let run := transcribe audio_input model_size language d in
  snd run = raised e
  /\ List.length (chunk_events (fst run)) = k
  /\ engine_calls (fst run) = firstn (S k) chunks
  /\ files_written (fst run) = []
  /\ terminal_events (fst run) = [].
Proof.
  intros Hc Hk Hok Hraise. cbn zeta.
  destruct (transcribe_resolved audio_input model_size language d chunks Hc)
    as (prelude & Hy & Hf & He & Hrun).
  cbn zeta in Hrun.
  destruct (loop_fails_at model_size language (List.length chunks) (time_time 0)
              chunks 0 [] k chunk e Hk Hok Hraise) as (Hr & Hn & Hcalls).
  cbn zeta in Hr, Hn, Hcalls.
  destruct (loop_quiet model_size language (List.length chunks) (time_time 0)
              chunks 0 []) as (Lf & _ & Ly).
  destruct Hrun as [(e' & Hrun & [Hr'|(lines & Hr' & _)])|(lines & Hr' & _)];
    try congruence.
  assert (e' = e) by congruence. subst e'.
  rewrite Hrun. cbn [fst snd].
  repeat split.
  - rewrite chunk_events_app. unfold chunk_events at 1. rewrite Hy. exact Hn.
  - rewrite engine_calls_app, He. exact Hcalls.
  - rewrite files_written_app, Hf, Lf. reflexivity.
  - rewrite terminal_events_app. unfold terminal_events. rewrite Hy, Ly.
    apply chunk_done_not_terminal.
Qed.

(** X2. Of the events of a run, the final one alone carries a file: the
    artifact of an event is present exactly when the event is the one
    yielded after the loop. *)
Theorem artifact_only_in_final_event (audio_input : AudioInput)
    (model_size language : string) (d : Z)
    (site : YieldSite) (ev : ProgressEvent) :
  In (yield site ev) (fst (transcribe audio_input model_size language d)) ->
  (artifactPath ev <> None <-> site = run_done).
Proof.
  intros Hin. apply in_yields in Hin.
  destruct (chunks_of audio_input d) as [chunks|] eqn:Hc.
  - destruct (transcribe_resolved audio_input model_size language d chunks Hc)
      as (prelude & Hy & _ & _ & Hrun).
    cbn zeta in Hrun.
    set (run := process_chunks model_size language (List.length chunks)
                  (time_time 0) chunks 0 []) in *.
    destruct (loop_quiet model_size language (List.length chunks) (time_time 0)
                chunks 0 []) as (_ & _ & Ly).
    fold run in Ly.
    assert (Hchunk : In (site, ev) (yields (fst run)) ->
                     artifactPath ev <> None <-> site = run_done).
    { rewrite Ly. intros H. apply in_map_iff in H as (ev' & [= <- <-] & Hev).
      apply loop_events_no_artifact in Hev. rewrite Hev.
      split; [congruence|discriminate]. }
    destruct Hrun as [(e & Hrun & _)|(lines & _ & _ & Hrun)];
      rewrite Hrun in Hin; cbn [fst] in Hin;
      rewrite !yields_app, Hy in Hin; cbn [List.app] in Hin.
    + now apply Hchunk.
    + apply in_app_or in Hin as [Hin|Hin]; [now apply Hchunk|].
      cbn in Hin. destruct Hin as [[= <- <-]|[]].
      cbn. split; [reflexivity|discriminate].
  - destruct (transcribe_without_chunks audio_input model_size language d Hc)
      as (_ & _ & _ & Hsite).
    apply Hsite in Hin as (-> & ->). split; [congruence|discriminate].
Qed.

(** X3. The transcript of a recording always goes to
    [transcriptions/recorded_audio.txt], and that of a file to
    [transcriptions/<stem>.txt]: the final event names that path and it is
    the one file written. *)
Theorem transcript_path_from_input (audio_input : AudioInput)
    (model_size language : string) (d : Z) (ev : ProgressEvent) :
  In (yield run_done ev) (fst (transcribe audio_input model_size language d)) ->
  let file_name :=
    match audio_input with
    | Recorded _ _ => "recorded_audio"
    | FilePath path => stem path
    end in
  artifactPath ev = Some ("transcriptions/" ++ file_name ++ ".txt")
  /\ map fst (files_written (fst (transcribe audio_input model_size language d)))
     = ["transcriptions/" ++ file_name ++ ".txt"].
Proof.
  intros Hin. cbn zeta.
  destruct (final_event_run _ _ _ _ _ Hin)
    as (chunks & lines & path & _ & _ & Hf & _ & Ha & _ & _ & ->).
  rewrite Ha, Hf. split; reflexivity.
Qed.

Lemma lines_through_all (model_size language : string) (chunks : list string) :
  lines_through model_size language chunks (List.length chunks - 1)
  = List.concat (map (chunk_lines model_size language) chunks).
Proof.
  unfold lines_through. rewrite firstn_all2; [reflexivity|lia].
Qed.

(** X4. The preview of the last chunk event shows the end of the saved
    transcript: the text the final event carries is the newline-join of the
    display lines of all chunks, and the last preview is the newline-join
    of the last ten of those lines, all of them when there are at most
    ten. *)
Theorem last_preview_is_transcript_tail (audio_input : AudioInput)
    (model_size language : string) (d : Z) (chunk : string)
    (rest : list string) (ev : ProgressEvent) :
  chunks_of audio_input d = Some (chunk :: rest) ->
  In (yield run_done ev) (fst (transcribe audio_input model_size language d)) ->
  let transcript_lines :=
    List.concat (map (chunk_lines model_size language) (chunk :: rest)) in
  previewText ev = PyStr.join PyStr.newline transcript_lines
  /\ exists last_ev older shown,
       nth_error
         (chunk_events (fst (transcribe audio_input model_size language d)))
         (List.length rest) = Some last_ev
       /\ transcript_lines = List.app older shown
       /\ List.length shown = Nat.min 10 (List.length transcript_lines)
       /\ previewText last_ev = PyStr.join PyStr.newline shown
       /\ ((List.length transcript_lines <= 10)%nat ->
           previewText last_ev = previewText ev).
Proof.
  intros Hc Hin. cbv zeta.
  destruct (final_event_run _ _ _ _ _ Hin)
    as (chunks & lines & path & Hc' & Hl & _ & Hp & _ & Hn & _).
  rewrite Hc in Hc'. injection Hc' as <-. subst lines.
  split; [exact Hp|].
  set (L := List.concat (map (chunk_lines model_size language) (chunk :: rest)))
    in *.
  destruct (nth_error
              (chunk_events (fst (transcribe audio_input model_size language d)))
              (List.length rest)) as [last_ev|] eqn:Hk.
  - rewrite (transcribe_chunk_events _ _ _ _ _ Hc) in Hk.
    apply loop_event in Hk. cbn zeta in Hk. cbn [List.app] in Hk.
    replace (List.length rest) with (List.length (chunk :: rest) - 1)%nat in Hk
      by (cbn; lia).
    rewrite lines_through_all in Hk. fold L in Hk.
    assert (Hprev : previewText last_ev
                    = PyStr.join PyStr.newline (PyStr.last_items 10 L))
      by now rewrite Hk.
    destruct (last_items_suffix 10 L) as (Hsplit & Hlen).
    exists last_ev, (firstn (List.length L - 10) L), (PyStr.last_items 10 L).
    repeat split; trivial.
    intros Hshort. rewrite Hprev, Hp. unfold PyStr.last_items.
    now replace (List.length L - 10)%nat with 0%nat by lia.
  - apply nth_error_None in Hk. rewrite Hn in Hk. cbn in Hk. lia.
Qed.

Lemma format_time_zero (x : Q) : (x == 0)%Q -> format_time x = "0:00:00".
Proof.
  destruct x as [n p]. unfold Qeq. cbn. intros H.
  assert (n = 0) by lia. subst n. reflexivity.
Qed.

Lemma eta_zero_after_last (avg : Q) (n : nat) :
  rounding W -> (0 < n)%nat -> (eta avg n (n - 1) == 0)%Q.
Proof.
  intros [Hmono Hzero] Hn. unfold eta.
  replace (Z.of_nat n - Z.of_nat (n - 1) - 1) with 0 by lia.
  assert (E : (avg * inject_Z 0 == 0)%Q) by apply Qmult_0_r.
  apply Qle_antisym; rewrite <- Hzero; apply Hmono; rewrite E; apply Qle_refl.
Qed.

(** X5. The status of the last chunk event counts [n] of [n] chunks and
    shows an estimate of ["0:00:00"]. *)
Theorem last_status_shows_zero_eta (audio_input : AudioInput)
    (model_size language : string) (d : Z) (chunk : string)
    (rest : list string) (ev : ProgressEvent) :
  rounding W ->
  chunks_of audio_input d = Some (chunk :: rest) ->
  nth_error (chunk_events (fst (transcribe audio_input model_size language d)))
    (List.length rest) = Some ev ->
  let n := PyStr.str_int (Z.of_nat (List.length rest) + 1) in
  status ev
  = "🔄 Chunk " ++ n ++ "/" ++ n
    ++ " | ⏱ Elapsed: " ++ format_time (elapsed_at (List.length rest))
    ++ " | ETA: 0:00:00".
Proof.
  intros Hround Hc Hk. cbn zeta.
  rewrite (transcribe_chunk_events _ _ _ _ _ Hc) in Hk.
  apply loop_event in Hk. cbn zeta in Hk. cbn [Nat.add] in Hk.
  rewrite Hk. unfold status. cbn [fst]. unfold progress_status.
  replace (Z.of_nat (List.length (chunk :: rest)))
    with (Z.of_nat (List.length rest) + 1) by (cbn [List.length]; lia).
  rewrite (format_time_zero (eta _ _ _)); [reflexivity|].
  replace (List.length rest) with (List.length (chunk :: rest) - 1)%nat at 3
    by (cbn; lia).
  apply eta_zero_after_last; [exact Hround|cbn; lia].
Qed.

(** X6. When the splitting tool runs for a positive chunk duration but
    writes no segment file, and the transcript file can be written, the run
    ends as a success: the engine is never called, an empty transcript file
    is written, and the one event is the final event with an empty text. *)
Theorem no_segment_gives_empty_success (audio_input : AudioInput)
    (model_size language : string) (d : Z)
    (eff0 : list Effect) (audio_file file_name : string) (tmp : nat) :
  listdir_complete W ->
  resolve_input audio_input = (eff0, Ok (audio_file, file_name, tmp)) ->
  0 < d ->
  run_ffmpeg audio_file d = Ok 0%nat ->
  open_write_raises ("transcriptions/" ++ file_name ++ ".txt") "" = None ->
  let run := transcribe audio_input model_size language d in
  let output_txt_path := "transcriptions/" ++ file_name ++ ".txt" in
  snd run = returned
  /\ engine_calls (fst run) = []
  /\ files_written (fst run) = [(output_txt_path, "")]
  /\ yields (fst run)
     = [(run_done,
         ("✅ Done in " ++ format_time (fl (time_time 1 - time_time 0)),
          "", Some output_txt_path))].
Proof.
  intros Hlist Hres Hd Hn Hw. cbv zeta.
  pose proof (transcribe_resolved_at audio_input model_size language d
                _ _ _ _ Hres) as Hrun.
  cbv zeta in Hrun.
  pose proof (resolve_input_effects audio_input) as (Hy0 & Hf0 & He0 & _).
  rewrite Hres in Hy0, Hf0, He0. cbn [fst] in Hy0, Hf0, He0.
  destruct (get_chunks_effects tmp audio_file d) as (Gy & Gf & Ge).
  assert (Hpos : (d >? 0) = true) by (apply Z.gtb_lt; lia).
  assert (Hstart : get_chunks_raises audio_file d = None)
    by (unfold get_chunks_raises, split_audio_raises; now rewrite Hpos, Hn).
  assert (Hchunks : snd (get_chunks tmp audio_file d) = []).
  { unfold get_chunks. rewrite Hpos.
    pose proof (split_audio_length Hlist tmp audio_file d) as Hlen.
    unfold ffmpeg_segments in Hlen. rewrite Hn in Hlen.
    now apply length_zero_iff_nil. }
  rewrite Hstart, Hchunks in Hrun.
  cbn [process_chunks snd fst List.length] in Hrun.
  change (PyStr.join PyStr.newline []) with "" in Hrun.
  rewrite Hw in Hrun. rewrite Hrun. cbn [fst snd].
  rewrite !engine_calls_app, !files_written_app, !yields_app.
  rewrite Hy0, Hf0, He0, Gy, Gf, Ge. now cbn.
Qed.

Lemma in_firstn {A : Type} (x : A) (n : nat) (l : list A) :
  In x (firstn n l) -> In x l.
Proof.
  revert l. induction n as [|n IH]; intros [|y l]; cbn; try tauto.
  intros [->|H]; [now left|right; now apply IH].
Qed.

(** X7. A chunk for which the engine's answer has no ["segments"] entry, or
    an empty one, adds nothing: when that is so for every chunk and the
    transcript file can be written, each chunk still gets its event, every
    preview is empty and the transcript written is the empty text. *)
Theorem no_segments_gives_empty_transcript (audio_input : AudioInput)
    (model_size language : string) (d : Z) (chunks : list string) :
  chunks_of audio_input d = Some chunks ->
  (forall chunk, In chunk chunks ->
     model_transcribe model_size chunk language = engine_returns None
     \/ model_transcribe model_size chunk language = engine_returns (Some [])) ->
  open_write_raises (transcript_path audio_input) "" = None ->
  let run := transcribe audio_input model_size language d in
  List.length (chunk_events (fst run)) = List.length chunks
  /\ (forall ev, In ev (chunk_events (fst run)) -> previewText ev = "")
  /\ files_written (fst run) = [(transcript_path audio_input, "")]
  /\ snd run = returned.
Proof.
  intros Hc Hempty Hw. cbv zeta.
  assert (Hlines : forall cs, (forall c, In c cs -> In c chunks) ->
            List.concat (map (chunk_lines model_size language) cs) = []).
  { induction cs as [|c cs IH]; intros Hsub; [reflexivity|].
    cbn [map List.concat]. rewrite IH by (intros; apply Hsub; now right).
    unfold chunk_lines.
    destruct (Hempty c (Hsub c (or_introl eq_refl))) as [-> | ->]; reflexivity. }
  assert (Hall : forall c, In c chunks -> engine_succeeds model_size language c).
  { intros c Hin. destruct (Hempty c Hin); eexists; eassumption. }
  rewrite (transcribe_chunk_events _ _ _ _ _ Hc).
  destruct (transcribe_resolved audio_input model_size language d chunks Hc)
    as (prelude & _ & Hf & _ & Hrun).
  cbn zeta in Hrun.
  destruct (loop_completes model_size language (List.length chunks)
              (time_time 0) chunks 0 [] Hall) as (lines & E).
  destruct (loop_finished model_size language (List.length chunks)
              (time_time 0) chunks 0 [] lines E) as (_ & Hl & Hn & _).
  destruct (loop_quiet model_size language (List.length chunks) (time_time 0)
              chunks 0 []) as (Lf & _ & _).
  rewrite Hlines in Hl by trivial. cbn in Hl. subst lines.
  change (PyStr.join PyStr.newline []) with "" in Hrun.
  destruct Hrun as [(e & _ & [Hr|(lines & Hr & Hw')])|(lines & Hr & _ & Hrun)].
  - congruence.
  - assert (lines = []) by congruence. subst lines.
    change (PyStr.join PyStr.newline []) with "" in Hw'. congruence.
  - assert (lines = []) by congruence. subst lines.
    rewrite Hrun. cbn [fst snd]. repeat split.
    + exact Hn.
    + intros ev Hin. apply In_nth_error in Hin as (k & Hk).
      apply loop_event in Hk. cbn zeta in Hk. rewrite Hk.
      unfold previewText. cbn [fst snd List.app]. unfold lines_through.
      rewrite Hlines; [reflexivity|].
      intros c Hin. eapply in_firstn. exact Hin.
    + rewrite !files_written_app, Hf, Lf. reflexivity.
Qed.

(** X8. For a positive chunk duration and an input that resolved, the run
    starts exactly one command, the splitting tool on the resolved file with
    the chunk duration as segment time, whether or not the engine later
    raises. *)
Theorem splitter_runs_once (audio_input : AudioInput)
    (model_size language : string) (d : Z)
    (eff0 : list Effect) (audio_file file_name : string) (tmp : nat) :
  resolve_input audio_input = (eff0, Ok (audio_file, file_name, tmp)) ->
  0 < d ->
  commands_run (fst (transcribe audio_input model_size language d))
  = [["ffmpeg"; "-i"; audio_file;
      "-f"; "segment"; "-segment_time"; PyStr.str_int d;
      "-c:a"; "pcm_s16le"; "-ar"; "16000"; "-ac"; "1";
      os_path_join (mkdtemp tmp) "chunk_%03d.wav"]].
Proof.
  intros Hres Hd.
  pose proof (transcribe_resolved_at audio_input model_size language d
                _ _ _ _ Hres) as Hrun.
  cbv zeta in Hrun.
  pose proof (resolve_input_effects audio_input) as (_ & _ & _ & Hc0).
  rewrite Hres in Hc0. cbn [fst] in Hc0.
  destruct (loop_quiet model_size language
              (List.length (snd (get_chunks tmp audio_file d)))
              (time_time 0) (snd (get_chunks tmp audio_file d)) 0 [])
    as (_ & Lc & _).
  assert (Hg : commands_run (fst (get_chunks tmp audio_file d))
               = [["ffmpeg"; "-i"; audio_file;
                   "-f"; "segment"; "-segment_time"; PyStr.str_int d;
                   "-c:a"; "pcm_s16le"; "-ar"; "16000"; "-ac"; "1";
                   os_path_join (mkdtemp tmp) "chunk_%03d.wav"]]).
  { unfold get_chunks. replace (d >? 0) with true
      by (symmetry; apply Z.gtb_lt; lia).
    reflexivity. }
  rewrite Hrun.
  destruct (get_chunks_raises audio_file d);
    [|destruct (snd (process_chunks _ _ _ _ _ 0 [])) as [ls|e];
      [destruct (open_write_raises _ _)|]];
    cbn [fst]; rewrite !commands_run_app, Hc0, Hg, ?Lc; reflexivity.
Qed.

(** X9. A recording with samples that the WAV writer accepts is written
    unchanged, at its sample rate, to [recorded.wav] in the first temporary
    directory, before anything else is done with it; with a chunk duration
    that is not positive that file is the one chunk, and the engine is
    called on it and on nothing else. *)
Theorem recording_is_saved_then_transcribed (sr : Z) (sample : Z)
    (samples : list Z) (model_size language : string) (d : Z) :
  wav_write_raises (os_path_join (mkdtemp 0) "recorded.wav") sr
    (sample :: samples) = None ->
  let data := sample :: samples in
  let temp_path := os_path_join (mkdtemp 0) "recorded.wav" in
  let tr := fst (transcribe (Recorded sr (Some data)) model_size language d) in
  (exists rest,
     tr = load_model model_size :: makedirs "transcriptions"
          :: wav_write temp_path sr data :: rest)
  /\ (d <= 0 ->
      chunks_of (Recorded sr (Some data)) d = Some [temp_path]
      /\ engine_calls tr = [temp_path]).
Proof.
  intros Hwav data temp_path tr. subst data temp_path tr.
  assert (Hres : resolve_input (Recorded sr (Some (sample :: samples)))
                 = ([wav_write (os_path_join (mkdtemp 0) "recorded.wav") sr
                       (sample :: samples)],
                    Ok (os_path_join (mkdtemp 0) "recorded.wav",
                        "recorded_audio", 1%nat)))
    by (cbn; now rewrite Hwav).
  pose proof (transcribe_resolved_at _ model_size language d _ _ _ _ Hres)
    as Hrun.
  cbv zeta in Hrun.
  split.
  - rewrite Hrun.
    destruct (get_chunks_raises _ d);
      [|destruct (snd (process_chunks _ _ _ _ _ 0 [])) as [ls|e];
        [destruct (open_write_raises _ _)|]];
      cbn [fst List.app]; eauto.
  - intros Hd.
    assert (Hneg : (d >? 0) = false)
      by (rewrite Z.gtb_ltb; apply Z.ltb_ge; lia).
    assert (Hg : get_chunks 1 (os_path_join (mkdtemp 0) "recorded.wav") d
                 = ([], [os_path_join (mkdtemp 0) "recorded.wav"]))
      by (unfold get_chunks; now rewrite Hneg).
    assert (Hr : get_chunks_raises (os_path_join (mkdtemp 0) "recorded.wav") d
                 = None)
      by (unfold get_chunks_raises; now rewrite Hneg).
    split; [unfold chunks_of; now rewrite Hres, Hr, Hg|].
    rewrite Hr, Hg in Hrun. cbn [fst snd List.length] in Hrun.
    destruct (model_transcribe model_size
                (os_path_join (mkdtemp 0) "recorded.wav") language)
      as [e|segments] eqn:E.
    + rewrite (loop_raise _ _ _ _ _ _ _ _ _ E) in Hrun.
      cbn [fst snd] in Hrun. rewrite Hrun. reflexivity.
    + rewrite (loop_step _ _ _ _ _ _ _ _ _ E) in Hrun.
      cbv zeta in Hrun. cbn [fst snd process_chunks] in Hrun.
      rewrite Hrun.
      destruct (open_write_raises _ _); reflexivity.
Qed.

(** X16. A recording that the WAV writer rejects, for its sample rate say,
    is reported like a missing recording: after the attempt to write it the
    run yields the one failure event, carrying the writer's message, and
    returns; the engine is not called and nothing is transcribed. *)
Theorem rejected_recording_fails_once (sr : Z) (sample : Z)
    (samples : list Z) (model_size language : string) (d : Z) (e : string) :
  wav_write_raises (os_path_join (mkdtemp 0) "recorded.wav") sr
    (sample :: samples) = Some e ->
  transcribe (Recorded sr (Some (sample :: samples))) model_size language d
  = ([load_model model_size; makedirs "transcriptions";
      wav_write (os_path_join (mkdtemp 0) "recorded.wav") sr (sample :: samples);
      yield input_failure ("❌ Recording failed: " ++ e, "", None)],
     returned).
Proof.
  intros Hwav.
  apply (transcribe_rejected _ model_size language d
           [wav_write (os_path_join (mkdtemp 0) "recorded.wav") sr
              (sample :: samples)] e).
  cbn. now rewrite Hwav.
Qed.

End Outcomes.

(** ** More on the splitting tool's files *)

Section SegmentFiles.

Context {W : World}.
Hypothesis listing : listdir_complete W.

(** X10. A source cut in at most a thousand segments is transcribed in the
    order of the recording: the chunk at index [k] is the file of the
    [k]-th segment, in whatever order the directory is listed. *)
Theorem chunks_in_recording_order (tmp : nat) (file_path : string) (d : Z)
    (k : nat) :
  (ffmpeg_segments file_path d <= 1000)%nat ->
  (k < ffmpeg_segments file_path d)%nat ->
  nth_error (snd (split_audio tmp file_path d)) k
  = Some (os_path_join (mkdtemp tmp) (segment_name k)).
Proof.
  intros Hn Hk. rewrite (split_audio_chronological listing) by exact Hn.
  rewrite nth_error_map.
  rewrite (nth_error_nth' _ 0%nat) by (rewrite length_seq; exact Hk).
  rewrite seq_nth by exact Hk. reflexivity.
Qed.

(** X11. The chunk list holds every file the tool wrote exactly once, the
    [.wav] filter dropping none of them, in ascending order of the path. *)
Theorem chunk_list_is_sorted_listing (tmp : nat) (file_path : string) (d : Z) :
  let chunks := snd (split_audio tmp file_path d) in
  Permutation chunks
    (map (fun k => os_path_join (mkdtemp tmp) (segment_name k))
       (seq 0 (ffmpeg_segments file_path d)))
  /\ StronglySorted str_le chunks.
Proof.
  cbn zeta. rewrite (split_audio_chunks listing). split.
  - rewrite <- (map_map segment_name (os_path_join (mkdtemp tmp))).
    apply Permutation_map, sorted_perm.
  - rewrite <- sorted_join. apply sorted_ascending.
Qed.

End SegmentFiles.

(** ** More on the time formatter *)

Section FormatterShape.

Lemma quot_towards_zero (n : Z) (p : positive) :
  exists q r,
    Z.quot n (Zpos p) = q /\ n = Zpos p * q + r
    /\ - Zpos p < r < Zpos p /\ (0 <= n -> 0 <= r) /\ (n <= 0 -> r <= 0).
Proof.
  exists (Z.quot n (Zpos p)), (Z.rem n (Zpos p)).
  split; [reflexivity|]. split; [apply Z.quot_rem'|].
  repeat split.
  - destruct (Z.le_gt_cases 0 n).
    + pose proof (Z.rem_bound_pos_pos n (Zpos p)). lia.
    + pose proof (Z.rem_bound_pos_neg n (Zpos p)). lia.
  - destruct (Z.le_gt_cases 0 n).
    + pose proof (Z.rem_bound_pos_pos n (Zpos p)). lia.
    + pose proof (Z.rem_bound_pos_neg n (Zpos p)). lia.
  - intros. apply Z.rem_bound_pos_pos; lia.
  - intros. apply Z.rem_bound_pos_neg; lia.
Qed.

Lemma int_of_float_range (x : Q) :
  0 <= int_of_float x < 86400 <-> (-1 < x)%Q /\ (x < 86400)%Q.
Proof.
  destruct x as [n p]. unfold int_of_float, Qlt. cbn [Qnum Qden].
  destruct (quot_towards_zero n p) as (q & r & -> & E & R & S & S').
  change (Qnum (-1)) with (-1). change (Qnum 86400) with 86400.
  change (Zpos (Qden (-1))) with 1. change (Zpos (Qden 86400)) with 1.
  nia.
Qed.

Lemma all_digits_uint (d : Decimal.uint) :
  all_digits (NilEmpty.string_of_uint d) = true.
Proof. induction d; cbn; trivial. Qed.

(** A whole number from zero on prints as digits, a negative one with a
    sign first. *)
Lemma str_int_digits (n : Z) :
  0 <= n ->
  all_digits (PyStr.str_int n) = true /\ PyStr.str_int n <> EmptyString.
Proof.
  intros Hn. unfold PyStr.str_int.
  destruct n as [|p|p]; [split; [reflexivity|discriminate]| |lia].
  cbn [Z.to_int NilZero.string_of_int]. unfold NilZero.string_of_uint.
  pose proof (all_digits_uint (Pos.to_uint p)) as Hd.
  pose proof (Unsigned.to_uint_nonnil p) as Hnil.
  destruct (Pos.to_uint p) eqn:E; try congruence;
    (split; [exact Hd|cbn; discriminate]).
Qed.

Lemma str_int_negative (n : Z) :
  n < 0 -> exists s, PyStr.str_int n = String "-" s.
Proof.
  intros Hn. destruct n as [|p|p]; try lia.
  unfold PyStr.str_int. cbn. eauto.
Qed.

Lemma skip_digits_stop (hs : string) (c : ascii) (rest : string) :
  all_digits hs = true -> is_digit c = false ->
  skip_digits (hs ++ String c rest) = String c rest.
Proof.
  intros Hs Hc. induction hs as [|h hs IH].
  - cbn [append skip_digits]. now rewrite Hc.
  - cbn [all_digits] in Hs. apply andb_true_iff in Hs as [Hh Hs].
    cbn [append skip_digits]. rewrite Hh. now apply IH.
Qed.

(** From one day on, and below zero, the day count comes first. *)
Lemma str_timedelta_with_days (n : Z) :
  ~ 0 <= n < 86400 -> is_hmmss (str_timedelta n) = false.
Proof.
  intros Hn. unfold str_timedelta.
  assert (Hdays : n / 86400 <> 0).
  { intros E. apply Z.div_small_iff in E; lia. }
  apply Z.eqb_neq in Hdays. rewrite Hdays.
  set (tail := PyStr.str_int (n mod 86400 / 60 / 60) ++ _).
  destruct (Z.lt_ge_cases (n / 86400) 0) as [Hneg|Hpos].
  - destruct (str_int_negative _ Hneg) as (s & ->). reflexivity.
  - destruct (str_int_digits _ Hpos) as (Hd & Hne).
    assert (Hshape : forall rest,
               is_hmmss (PyStr.str_int (n / 86400) ++ String " " rest) = false).
    { intros rest.
      pose proof (skip_digits_stop _ " " rest Hd eq_refl) as Hskip.
      destruct (PyStr.str_int (n / 86400)) as [|h hs]; [congruence|].
      change (String h hs ++ String " " rest)
        with (String h (hs ++ String " " rest)) in *.
      unfold is_hmmss. rewrite Hskip. apply andb_false_r. }
    destruct (Z.abs (n / 86400) =? 1); apply Hshape.
Qed.

Lemma str_timedelta_days (n : Z) :
  n / 86400 <> 0 ->
  str_timedelta n
  = PyStr.str_int (n / 86400)
    ++ (if Z.abs (n / 86400) =? 1 then " day, " else " days, ")
    ++ hmmss (n mod 86400).
Proof.
  intros Hdays. unfold str_timedelta, hmmss.
  apply Z.eqb_neq in Hdays. rewrite Hdays.
  now rewrite Z.div_div by lia.
Qed.

(** X12. For a time that [timedelta] accepts, the string has the shape
    ["H:MM:SS"] exactly when the time lies above minus one second and below
    one day; for every other such time it is the day count, [" day, "] or
    [" days, "], and the ["H:MM:SS"] of the seconds within the day. *)
Theorem format_time_shape (x : Q) :
  timedelta_accepts (int_of_float x) ->
  let n := int_of_float x in
  (is_hmmss (format_time x) = true <-> (-1 < x)%Q /\ (x < 86400)%Q)
  /\ (~ ((-1 < x)%Q /\ (x < 86400)%Q) ->
      n / 86400 <> 0
      /\ format_time x
         = PyStr.str_int (n / 86400)
           ++ (if Z.abs (n / 86400) =? 1 then " day, " else " days, ")
           ++ hmmss (n mod 86400)).
Proof.
  intros _. cbv zeta. rewrite <- int_of_float_range. unfold format_time.
  split; [split|].
  - intros H.
    destruct (Z.le_gt_cases 0 (int_of_float x)) as [H0|H0];
      destruct (Z.lt_ge_cases (int_of_float x) 86400) as [H1|H1];
      try (split; assumption);
      rewrite str_timedelta_with_days in H by lia; discriminate.
  - intros H. rewrite str_timedelta_hmmss by exact H. now apply hmmss_shape.
  - intros Hout.
    assert (Hdays : int_of_float x / 86400 <> 0).
    { intros E. apply Z.div_small_iff in E; lia. }
    split; [exact Hdays|now apply str_timedelta_days].
Qed.

(** X13. The fraction of a second is dropped towards zero: every time
    strictly between minus one and one second is shown as ["0:00:00"]. *)
Theorem format_time_below_one_second (x : Q) :
  (-1 < x)%Q -> (x < 1)%Q -> format_time x = "0:00:00".
Proof.
  intros Hlo Hhi. unfold format_time.
  replace (int_of_float x) with 0; [reflexivity|].
  destruct x as [n p]. unfold int_of_float, Qlt in *. cbn [Qnum Qden] in *.
  destruct (quot_towards_zero n p) as (q & r & -> & E & R & S & S').
  change (Qnum (-1)) with (-1) in Hlo. change (Qnum 1) with 1 in Hhi.
  change (Zpos (Qden (-1))) with 1 in Hlo. change (Zpos (Qden 1)) with 1 in Hhi.
  nia.
Qed.

End FormatterShape.

(** ** More on the text of a display line *)

Section Stripping.

Lemma append_assoc (a b c : string) : (a ++ b) ++ c = a ++ (b ++ c).
Proof. induction a as [|x a IH]; cbn; [reflexivity|now rewrite IH]. Qed.

Lemma append_empty (a : string) : a ++ "" = a.
Proof. induction a as [|x a IH]; cbn; [reflexivity|now rewrite IH]. Qed.

Lemma length_append (a b : string) :
  String.length (a ++ b) = (String.length a + String.length b)%nat.
Proof. induction a as [|x a IH]; cbn; [reflexivity|now rewrite IH]. Qed.

Lemma prefix_elim (w s : string) :
  String.prefix w s = true -> exists r, s = w ++ r.
Proof.
  revert s. induction w as [|a w IH]; intros s; [cbn; eauto|].
  destruct s as [|b s]; cbn; [discriminate|].
  destruct (ascii_dec a b) as [->|]; [|discriminate].
  intros H. destruct (IH s H) as (r & ->). eauto.
Qed.

Lemma prefix_intro (w r : string) : String.prefix w (w ++ r) = true.
Proof.
  induction w as [|a w IH]; [now destruct r|].
  cbn. now destruct (ascii_dec a a).
Qed.

Lemma strip_prefix_elim (w s r : string) :
  PyStr.strip_prefix w s = Some r -> s = w ++ r.
Proof.
  revert s. induction w as [|a w IH]; intros s; cbn.
  - now intros [= ->].
  - destruct s as [|b s]; [discriminate|].
    destruct (Ascii.eqb_spec a b) as [->|]; [|discriminate].
    intros H. now rewrite (IH s H).
Qed.

Lemma strip_prefix_intro (w r : string) :
  PyStr.strip_prefix w (w ++ r) = Some r.
Proof.
  induction w as [|a w IH]; cbn; [reflexivity|].
  now rewrite Ascii.eqb_refl.
Qed.

Lemma drop_space_elim (ws : list string) (s r : string) :
  PyStr.drop_space ws s = Some r -> exists w, In w ws /\ s = w ++ r.
Proof.
  induction ws as [|w ws IH]; cbn; [discriminate|].
  destruct (PyStr.strip_prefix w s) as [r'|] eqn:E.
  - intros [= ->]. exists w. split; [now left|now apply strip_prefix_elim].
  - intros H. destruct (IH H) as (w' & Hin & Hs). exists w'. split; [now right|exact Hs].
Qed.

Lemma drop_space_intro (ws : list string) (w r : string) :
  In w ws -> PyStr.drop_space ws (w ++ r) <> None.
Proof.
  induction ws as [|w0 ws IH]; cbn; [tauto|].
  intros Hin. destruct (PyStr.strip_prefix w0 (w ++ r)) eqn:E; [discriminate|].
  destruct Hin as [->|Hin]; [|now apply IH].
  rewrite strip_prefix_intro in E. discriminate.
Qed.

(** Stripping on the left stops at a string without leading white space,
    takes only a prefix away, and leaves such a string as it is. *)
Lemma lstrip_fuel_clean (ws : list string) :
  (forall w, In w ws -> w <> EmptyString) ->
  forall fuel s,
    (String.length s <= fuel)%nat ->
    PyStr.drop_space ws (PyStr.lstrip_fuel fuel ws s) = None.
Proof.
  intros Hne. induction fuel as [|fuel IH]; intros s Hlen.
  - destruct s; [|cbn in Hlen; lia]. cbn.
    destruct (PyStr.drop_space ws "") as [r|] eqn:E; [|reflexivity].
    apply drop_space_elim in E as (w & Hin & Hs).
    destruct w; [now apply Hne in Hin|discriminate].
  - cbn. destruct (PyStr.drop_space ws s) as [r|] eqn:E; [|exact E].
    apply IH.
    apply drop_space_elim in E as (w & Hin & ->).
    rewrite length_append in Hlen.
    destruct w; [now apply Hne in Hin|cbn in Hlen; lia].
Qed.



Lemma list_ascii_append (a b : string) :
  list_ascii_of_string (a ++ b)
  = List.app (list_ascii_of_string a) (list_ascii_of_string b).
Proof. induction a as [|x a IH]; cbn; [reflexivity|now rewrite IH]. Qed.

Lemma string_of_list_app (l1 l2 : list ascii) :
  string_of_list_ascii (List.app l1 l2)
  = string_of_list_ascii l1 ++ string_of_list_ascii l2.
Proof. induction l1 as [|x l1 IH]; cbn; [reflexivity|now rewrite IH]. Qed.

Lemma reverse_append (a b : string) :
  PyStr.reverse (a ++ b) = PyStr.reverse b ++ PyStr.reverse a.
Proof.
  unfold PyStr.reverse.
  now rewrite list_ascii_append, rev_app_distr, string_of_list_app.
Qed.

Lemma reverse_involutive (s : string) : PyStr.reverse (PyStr.reverse s) = s.
Proof.
  unfold PyStr.reverse.
  now rewrite list_ascii_of_string_of_list_ascii, rev_involutive,
    string_of_list_ascii_of_string.
Qed.

Lemma length_reverse (s : string) :
  String.length (PyStr.reverse s) = String.length s.
Proof.
  induction s as [|x s IH]; [reflexivity|].
  change (String x s) with (String x "" ++ s).
  rewrite reverse_append, !length_append, IH. cbn. lia.
Qed.

Lemma endswith_elim (s w : string) :
  PyStr.endswith s w = true -> exists p, s = p ++ w.
Proof.
  induction s as [|x s IH]; rewrite endswith_eq.
  - destruct (String.eqb_spec "" w) as [<-|]; [now exists ""|discriminate].
  - destruct (String.eqb_spec (String x s) w) as [<-|]; [now exists ""|].
    intros H. destruct (IH H) as (p & ->). now exists (String x p).
Qed.

Lemma whitespace_not_empty (w : string) :
  In w PyStr.whitespace -> w <> EmptyString.
Proof.
  assert (All : forallb (fun w => negb (String.eqb w "")) PyStr.whitespace = true)
    by (vm_compute; reflexivity).
  rewrite forallb_forall in All. intros Hin ->.
  now apply All in Hin.
Qed.

Lemma reversed_whitespace_not_empty (w : string) :
  In w (map PyStr.reverse PyStr.whitespace) -> w <> EmptyString.
Proof.
  intros Hin. apply in_map_iff in Hin as (w' & <- & Hin).
  apply whitespace_not_empty in Hin. intros E.
  apply Hin. rewrite <- (reverse_involutive w'), E. reflexivity.
Qed.

Lemma leading_space_drop (s : string) :
  leading_space s = false <-> PyStr.drop_space PyStr.whitespace s = None.
Proof.
  unfold leading_space. split.
  - intros H. destruct (PyStr.drop_space PyStr.whitespace s) as [r|] eqn:E;
      [|reflexivity].
    apply drop_space_elim in E as (w & Hin & ->).
    assert (existsb (fun w0 => String.prefix w0 (w ++ r)) PyStr.whitespace = true)
      by (apply existsb_exists; exists w; split; [exact Hin|apply prefix_intro]).
    congruence.
  - intros H.
    destruct (existsb _ PyStr.whitespace) eqn:E; [|reflexivity].
    apply existsb_exists in E as (w & Hin & Hp).
    apply prefix_elim in Hp as (r & ->).
    now apply (drop_space_intro _ _ r) in Hin.
Qed.

Lemma trailing_space_drop (s : string) :
  trailing_space s = false
  <-> PyStr.drop_space (map PyStr.reverse PyStr.whitespace) (PyStr.reverse s)
      = None.
Proof.
  unfold trailing_space. split.
  - intros H.
    destruct (PyStr.drop_space _ (PyStr.reverse s)) as [r|] eqn:E;
      [|reflexivity].
    apply drop_space_elim in E as (w' & Hin & Hs).
    apply in_map_iff in Hin as (w & <- & Hin).
    apply (f_equal PyStr.reverse) in Hs.
    rewrite reverse_involutive, reverse_append, reverse_involutive in Hs.
    assert (existsb (fun w0 => PyStr.endswith s w0) PyStr.whitespace = true)
      by (apply existsb_exists; exists w; split;
          [exact Hin|rewrite Hs; apply endswith_append]).
    congruence.
  - intros H.
    destruct (existsb _ PyStr.whitespace) eqn:E; [|reflexivity].
    apply existsb_exists in E as (w & Hin & Hp).
    apply endswith_elim in Hp as (p & ->).
    rewrite reverse_append in H.
    apply (in_map PyStr.reverse) in Hin.
    now apply (drop_space_intro _ _ (PyStr.reverse p)) in Hin.
Qed.

(** What stripping takes away is white space. *)
Lemma lstrip_fuel_removed (ws : list string) (fuel : nat) :
  forall s, exists l,
    Forall (fun w => In w ws) l /\ s = flatten l ++ PyStr.lstrip_fuel fuel ws s.
Proof.
  induction fuel as [|fuel IH]; intros s; [now exists []|].
  cbn. destruct (PyStr.drop_space ws s) as [r|] eqn:E; [|now exists []].
  apply drop_space_elim in E as (w & Hin & ->).
  destruct (IH r) as (l & Hl & Hr). exists (w :: l).
  split; [now constructor|]. cbn [flatten]. now rewrite append_assoc, <- Hr.
Qed.

Lemma flatten_app (l1 l2 : list string) :
  flatten (List.app l1 l2) = flatten l1 ++ flatten l2.
Proof.
  induction l1 as [|w l1 IH]; cbn; [reflexivity|].
  now rewrite IH, append_assoc.
Qed.

Lemma reverse_flatten (l : list string) :
  PyStr.reverse (flatten l) = flatten (rev (map PyStr.reverse l)).
Proof.
  induction l as [|w l IH]; [reflexivity|].
  cbn [flatten map rev]. rewrite reverse_append, IH, flatten_app. cbn.
  now rewrite append_empty.
Qed.

Lemma strip_spec (s : string) :
  exists before after,
    s = before ++ PyStr.strip s ++ after
    /\ only_space before /\ only_space after
    /\ leading_space (PyStr.strip s) = false
    /\ trailing_space (PyStr.strip s) = false.
Proof.
  unfold PyStr.strip, PyStr.rstrip, PyStr.lstrip.
  set (t := PyStr.lstrip_fuel (String.length s) PyStr.whitespace s).
  set (r := PyStr.lstrip_fuel (String.length t)
              (map PyStr.reverse PyStr.whitespace) (PyStr.reverse t)).
  assert (Ht : PyStr.drop_space PyStr.whitespace t = None)
    by (apply lstrip_fuel_clean; [apply whitespace_not_empty|lia]).
  assert (Hr : PyStr.drop_space (map PyStr.reverse PyStr.whitespace) r = None)
    by (apply lstrip_fuel_clean;
        [apply reversed_whitespace_not_empty|rewrite length_reverse; lia]).
  destruct (lstrip_fuel_removed PyStr.whitespace (String.length s) s)
    as (la & Hla & Hs). fold t in Hs.
  destruct (lstrip_fuel_removed (map PyStr.reverse PyStr.whitespace)
              (String.length t) (PyStr.reverse t)) as (lp & Hlp & Hp).
  fold r in Hp.
  assert (Hsplit : t = PyStr.reverse r ++ PyStr.reverse (flatten lp)).
  { rewrite <- (reverse_involutive t), Hp. apply reverse_append. }
  exists (flatten la), (PyStr.reverse (flatten lp)).
  repeat split.
  - now rewrite <- Hsplit.
  - now exists la.
  - exists (rev (map PyStr.reverse lp)). split; [|apply reverse_flatten].
    apply Forall_rev. rewrite Forall_forall in *.
    intros w Hw. apply in_map_iff in Hw as (w' & <- & Hw').
    apply Hlp in Hw'. apply in_map_iff in Hw' as (w & <- & Hw).
    now rewrite reverse_involutive.
  - apply leading_space_drop.
    destruct (PyStr.drop_space PyStr.whitespace (PyStr.reverse r))
      as [r'|] eqn:E; [|reflexivity].
    apply drop_space_elim in E as (w & Hin & Hw).
    rewrite Hsplit, Hw, append_assoc in Ht.
    now apply (drop_space_intro _ _ (r' ++ PyStr.reverse (flatten lp))) in Hin.
  - apply trailing_space_drop. now rewrite reverse_involutive.
Qed.


End Stripping.

(** ** The display line of a segment below one day *)

(** C9, as the code has it. The formatter maps 0 seconds to ["0:00:00"]
    and 3661 seconds to ["1:01:01"]; a segment whose start and end lie
    from 0 up to, not including, 86400 seconds is displayed as
    ["[H:MM:SS - H:MM:SS]: text"], the times being those of the floors of
    start and end and the text the segment's text without the white space
    before and after it. *)
Theorem display_line_below_one_day (seg : Segment) :
  (0 <= seg_start seg)%Q -> (seg_start seg < 86400)%Q ->
  (0 <= seg_end seg)%Q -> (seg_end seg < 86400)%Q ->
  format_time 0 = "0:00:00"
  /\ format_time 3661 = "1:01:01"
  /\ display_line seg = spec_display_line seg
  /\ is_hmmss (format_time (seg_start seg)) = true
  /\ is_hmmss (format_time (seg_end seg)) = true
  /\ exists text before after,
       display_line seg
       = "[" ++ hmmss (Qfloor (seg_start seg)) ++ " - "
         ++ hmmss (Qfloor (seg_end seg)) ++ "]: " ++ text
       /\ seg_text seg = before ++ text ++ after
       /\ only_space before /\ only_space after
       /\ leading_space text = false
       /\ trailing_space text = false.
Proof.
  intros Hs0 Hs1 He0 He1.
  destruct (format_time_hmmss _ Hs0 Hs1) as (Es & Ss).
  destruct (format_time_hmmss _ He0 He1) as (Ee & Se).
  assert (Hline : display_line seg = spec_display_line seg)
    by (unfold display_line, spec_display_line; now rewrite Es, Ee).
  repeat split; trivial.
  destruct (strip_spec (seg_text seg))
    as (before & after & Hsplit & Hb & Ha & Hl & Ht).
  exists (PyStr.strip (seg_text seg)), before, after.
  repeat split; trivial.
Qed.

(** ** The estimates of a run under a clock that does not go back *)

Section SteadyClock.

Context {W : World}.

(** X15. When no reading of the clock is earlier than the first, the
    status of every chunk event is built from an elapsed time and an
    estimate that are both non-negative. *)
Theorem estimates_nonnegative_under_steady_clock (audio_input : AudioInput)
    (model_size language : string) (d : Z) (chunks : list string)
    (k : nat) (ev : ProgressEvent) :
  rounding W ->
  (forall j, (time_time 0 <= time_time j)%Q) ->
  chunks_of audio_input d = Some chunks ->
  nth_error (chunk_events (fst (transcribe audio_input model_size language d))) k
  = Some ev ->
  exists elapsed remaining,
    status ev = progress_status k (List.length chunks) elapsed remaining
    /\ (0 <= elapsed)%Q /\ (0 <= remaining)%Q.
Proof.
  intros [Hmono Hzero] Hclock Hc Hk.
  assert (Hpos : forall x, (0 <= x)%Q -> (0 <= fl x)%Q).
  { intros x Hx. rewrite <- Hzero. now apply Hmono. }
  assert (Hlt : (k < List.length chunks)%nat).
  { rewrite (transcribe_chunk_events _ _ _ _ _ Hc) in Hk.
    eapply Nat.lt_le_trans; [|apply loop_events_bound].
    apply nth_error_Some. rewrite Hk. discriminate. }
  destruct (status_shows_estimate _ _ _ _ _ _ _ Hc Hk) as (Hs & _).
  assert (Hel : (0 <= elapsed_at k)%Q).
  { unfold elapsed_at. apply Hpos.
    rewrite <- (Qplus_opp_r (time_time 0)). unfold Qminus.
    apply Qplus_le_compat; [apply Hclock|apply Qle_refl]. }
  assert (Havg : (0 <= avg_time (elapsed_at k) k)%Q).
  { apply Hpos. unfold Qdiv. apply Qmult_le_0_compat; [exact Hel|].
    apply Qinv_le_0_compat. change 0%Q with (inject_Z 0).
    rewrite <- Zle_Qle. lia. }
  eexists _, _. split; [exact Hs|]. split; [exact Hel|].
  apply Hpos. apply Qmult_le_0_compat; [exact Havg|].
  change 0%Q with (inject_Z 0). rewrite <- Zle_Qle. lia.
Qed.

End SteadyClock.

(** ** These theorems at work in the sample worlds *)

(** The engine fails on the second of three chunks. *)
Lemma engine_failure_witness :
  let W := Sample.failing_world 3 "/tmp/tmp0/chunk_001.wav" in
  let run := transcribe (FilePath "talk.mp3") "base" "en" 120 in
  snd run = raised "CUDA out of memory"
  /\ List.length (chunk_events (fst run)) = 1%nat
  /\ engine_calls (fst run)
     = ["/tmp/tmp0/chunk_000.wav"; "/tmp/tmp0/chunk_001.wav"]
  /\ files_written (fst run) = []
  /\ terminal_events (fst run) = [].
Proof.
  cbn zeta.
  apply (engine_failure_aborts_run
           (W := Sample.failing_world 3 "/tmp/tmp0/chunk_001.wav")
           (FilePath "talk.mp3") "base" "en" 120
           ["/tmp/tmp0/chunk_000.wav"; "/tmp/tmp0/chunk_001.wav";
            "/tmp/tmp0/chunk_002.wav"]
           1 "/tmp/tmp0/chunk_001.wav" "CUDA out of memory").
  - vm_compute. reflexivity.
  - reflexivity.
  - intros c [<-|[]]. eexists. reflexivity.
  - reflexivity.
Defined.

Lemma final_event_in_sample_run :
  exists ev,
    In (yield run_done ev)
       (fst (transcribe (W := Sample.world 2) (FilePath "talk.mp3") "base" "en" 0)).
Proof.
  eexists. vm_compute. repeat (first [left; reflexivity | right]).
Qed.

Lemma final_event_in_long_run :
  exists ev,
    In (yield run_done ev)
       (fst (transcribe (W := Sample.world 6) (FilePath "talk.mp3") "base" "en" 120)).
Proof.
  eexists. vm_compute. repeat (first [left; reflexivity | right]).
Qed.

(** The final event of a run names the file. *)
Lemma artifact_witness :
  let W := Sample.world 2 in
  exists ev,
    In (yield run_done ev) (fst (transcribe (FilePath "talk.mp3") "base" "en" 0))
    /\ (artifactPath ev <> None <-> run_done = run_done).
Proof.
  cbn zeta. destruct final_event_in_sample_run as (ev & Hin).
  exists ev. split; [exact Hin|].
  exact (artifact_only_in_final_event (W := Sample.world 2)
           (FilePath "talk.mp3") "base" "en" 0 run_done ev Hin).
Defined.

Lemma transcript_path_witness :
  let W := Sample.world 2 in
  exists ev,
    In (yield run_done ev) (fst (transcribe (FilePath "talk.mp3") "base" "en" 0))
    /\ artifactPath ev = Some "transcriptions/talk.txt"
    /\ map fst (files_written
                  (fst (transcribe (FilePath "talk.mp3") "base" "en" 0)))
       = ["transcriptions/talk.txt"].
Proof.
  cbn zeta. destruct final_event_in_sample_run as (ev & Hin).
  exists ev. split; [exact Hin|].
  exact (transcript_path_from_input (W := Sample.world 2)
           (FilePath "talk.mp3") "base" "en" 0 ev Hin).
Defined.

(** Six chunks, twelve lines: the last preview is the last ten lines of the
    transcript. *)
Lemma last_preview_witness :
  let W := Sample.world 6 in
  let tr := fst (transcribe (FilePath "talk.mp3") "base" "en" 120) in
  let transcript_lines :=
    List.concat
      (map (chunk_lines "base" "en")
         (map (fun k => os_path_join "/tmp/tmp0" (segment_name k)) (seq 0 6))) in
  exists ev last_ev older shown,
    In (yield run_done ev) tr
    /\ previewText ev = PyStr.join PyStr.newline transcript_lines
    /\ nth_error (chunk_events tr) 5 = Some last_ev
    /\ transcript_lines = List.app older shown
    /\ List.length shown = 10%nat
    /\ previewText last_ev = PyStr.join PyStr.newline shown.
Proof.
  cbv zeta. destruct final_event_in_long_run as (ev & Hin).
  destruct (last_preview_is_transcript_tail (W := Sample.world 6)
              (FilePath "talk.mp3") "base" "en" 120
              "/tmp/tmp0/chunk_000.wav"
              (map (fun k => os_path_join "/tmp/tmp0" (segment_name k)) (seq 1 5))
              ev)
    as (Hp & last_ev & older & shown & Hk & Hsplit & Hlen & Hl & _).
  - vm_compute. reflexivity.
  - exact Hin.
  - exists ev, last_ev, older, shown. repeat split; assumption.
Defined.

Lemma last_status_witness :
  let W := Sample.world 6 in
  exists ev,
    nth_error
      (chunk_events (fst (transcribe (FilePath "talk.mp3") "base" "en" 120))) 5
    = Some ev
    /\ status ev = "🔄 Chunk 6/6 | ⏱ Elapsed: 0:00:18 | ETA: 0:00:00".
Proof.
  cbn zeta.
  destruct (nth_error
              (chunk_events
                 (fst (transcribe (W := Sample.world 6)
                         (FilePath "talk.mp3") "base" "en" 120))) 5)
    as [ev|] eqn:Hk; [|vm_compute in Hk; discriminate].
  exists ev. split; [reflexivity|].
  rewrite (last_status_shows_zero_eta (W := Sample.world 6)
             (FilePath "talk.mp3") "base" "en" 120
             "/tmp/tmp0/chunk_000.wav"
             (map (fun k => os_path_join "/tmp/tmp0" (segment_name k)) (seq 1 5))
             ev).
  - vm_compute. reflexivity.
  - apply sample_rounding.
  - vm_compute. reflexivity.
  - exact Hk.
Defined.

(** The tool writes nothing. *)
Lemma no_segment_witness :
  let W := Sample.world 0 in
  let run := transcribe (FilePath "talk.mp3") "base" "en" 120 in
  snd run = returned
  /\ engine_calls (fst run) = []
  /\ files_written (fst run) = [("transcriptions/talk.txt", "")]
  /\ yields (fst run)
     = [(run_done, ("✅ Done in 0:00:03", "", Some "transcriptions/talk.txt"))].
Proof.
  cbv zeta.
  apply (no_segment_gives_empty_success (W := Sample.world 0)
           (FilePath "talk.mp3") "base" "en" 120 [] "talk.mp3" "talk" 0).
  - apply sample_listing.
  - reflexivity.
  - lia.
  - reflexivity.
  - reflexivity.
Defined.

(** The engine answers without segments on both chunks. *)
Lemma no_segments_witness :
  let W := Sample.silent_world 2 in
  let run := transcribe (FilePath "talk.mp3") "base" "en" 120 in
  List.length (chunk_events (fst run)) = 2%nat
  /\ (forall ev, In ev (chunk_events (fst run)) -> previewText ev = "")
  /\ files_written (fst run) = [("transcriptions/talk.txt", "")]
  /\ snd run = returned.
Proof.
  cbv zeta.
  apply (no_segments_gives_empty_transcript (W := Sample.silent_world 2)
           (FilePath "talk.mp3") "base" "en" 120
           ["/tmp/tmp0/chunk_000.wav"; "/tmp/tmp0/chunk_001.wav"]).
  - vm_compute. reflexivity.
  - intros chunk _. left. reflexivity.
  - reflexivity.
Defined.

Lemma splitter_witness :
  let W := Sample.world 2 in
  commands_run (fst (transcribe (FilePath "talk.mp3") "base" "en" 120))
  = [["ffmpeg"; "-i"; "talk.mp3"; "-f"; "segment"; "-segment_time"; "120";
      "-c:a"; "pcm_s16le"; "-ar"; "16000"; "-ac"; "1";
      "/tmp/tmp0/chunk_%03d.wav"]].
Proof.
  cbn zeta.
  apply (splitter_runs_once (W := Sample.world 2)
           (FilePath "talk.mp3") "base" "en" 120 [] "talk.mp3" "talk" 0).
  - reflexivity.
  - lia.
Defined.

Lemma recording_order_witness :
  nth_error (snd (split_audio (W := Sample.world 3) 0 "talk.mp3" 120)) 2
  = Some "/tmp/tmp0/chunk_002.wav".
Proof.
  apply (chunks_in_recording_order (W := Sample.world 3) (sample_listing 3)
           0 "talk.mp3" 120 2).
  - cbn. lia.
  - cbn. lia.
Defined.

Lemma sorted_listing_witness :
  let chunks := snd (split_audio (W := Sample.world 3) 0 "talk.mp3" 120) in
  Permutation chunks
    ["/tmp/tmp0/chunk_000.wav"; "/tmp/tmp0/chunk_001.wav";
     "/tmp/tmp0/chunk_002.wav"]
  /\ StronglySorted str_le chunks.
Proof.
  exact (chunk_list_is_sorted_listing (W := Sample.world 3) (sample_listing 3)
           0 "talk.mp3" 120).
Defined.

Lemma below_one_second_witness : format_time (- (1 # 2)) = "0:00:00".
Proof.
  apply (format_time_below_one_second (- (1 # 2))); vm_compute; reflexivity.
Defined.

Lemma steady_clock_witness :
  let W := Sample.world 3 in
  exists ev elapsed remaining,
    nth_error
      (chunk_events (fst (transcribe (FilePath "talk.mp3") "base" "en" 120))) 1
    = Some ev
    /\ status ev = progress_status 1 3 elapsed remaining
    /\ (0 <= elapsed)%Q /\ (0 <= remaining)%Q.
Proof.
  cbn zeta.
  destruct (nth_error
              (chunk_events
                 (fst (transcribe (W := Sample.world 3)
                         (FilePath "talk.mp3") "base" "en" 120))) 1)
    as [ev|] eqn:Hk; [|vm_compute in Hk; discriminate].
  destruct (estimates_nonnegative_under_steady_clock (W := Sample.world 3)
              (FilePath "talk.mp3") "base" "en" 120
              ["/tmp/tmp0/chunk_000.wav"; "/tmp/tmp0/chunk_001.wav";
               "/tmp/tmp0/chunk_002.wav"] 1 ev)
    as (elapsed & remaining & Hs & He & Hr).
  - apply sample_rounding.
  - intros j.
    change (inject_Z (1000 + 3 * Z.of_nat 0) <= inject_Z (1000 + 3 * Z.of_nat j))%Q.
    rewrite <- Zle_Qle. lia.
  - vm_compute. reflexivity.
  - exact Hk.
  - exists ev, elapsed, remaining. repeat split; assumption.
Defined.

(** A recording of three samples at 16 kHz, and one at a negative rate. *)
Lemma recording_witness :
  let W := Sample.world 2 in
  let tr := fst (transcribe (Recorded 16000 (Some [1; 2; 3])) "base" "en" 0) in
  (exists rest,
     tr = load_model "base" :: makedirs "transcriptions"
          :: wav_write "/tmp/tmp0/recorded.wav" 16000 [1; 2; 3] :: rest)
  /\ chunks_of (Recorded 16000 (Some [1; 2; 3])) 0
     = Some ["/tmp/tmp0/recorded.wav"]
  /\ engine_calls tr = ["/tmp/tmp0/recorded.wav"].
Proof.
  cbv zeta.
  destruct (recording_is_saved_then_transcribed (W := Sample.world 2)
              16000 1 [2; 3] "base" "en" 0) as (Hsaved & Hchunk).
  - reflexivity.
  - split; [exact Hsaved|]. apply Hchunk. lia.
Defined.

Lemma rejected_recording_witness :
  transcribe (W := Sample.world 2) (Recorded (-1) (Some [1; 2; 3])) "base" "en" 0
  = ([load_model "base"; makedirs "transcriptions";
      wav_write "/tmp/tmp0/recorded.wav" (-1) [1; 2; 3];
      yield input_failure
        ("❌ Recording failed: 'I' format requires 0 <= number <= 4294967295",
         "", None)],
     returned).
Proof.
  apply (rejected_recording_fails_once (W := Sample.world 2)
           (-1) 1 [2; 3] "base" "en" 0
           "'I' format requires 0 <= number <= 4294967295").
  reflexivity.
Defined.

(** A segment of two and a half seconds. *)
Lemma display_line_witness :
  display_line (mkSegment 0 (5 # 2) " Hello ") = "[0:00:00 - 0:00:02]: Hello"
  /\ format_time 0 = "0:00:00"
  /\ format_time 3661 = "1:01:01".
Proof.
  destruct (display_line_below_one_day (mkSegment 0 (5 # 2) " Hello "))
    as (H0 & H1 & H2 & _).
  - vm_compute. discriminate.
  - vm_compute. reflexivity.
  - vm_compute. discriminate.
  - vm_compute. reflexivity.
  - split; [|split; assumption].
    rewrite H2. vm_compute. reflexivity.
Defined.

(** Twenty-five hours. *)
Lemma format_time_shape_witness :
  is_hmmss (format_time 90000) = false
  /\ format_time 90000 = "1 day, " ++ hmmss 3600.
Proof.
  destruct (format_time_shape 90000) as (Hiff & Hdays).
  - vm_compute. split; discriminate.
  - destruct Hdays as (_ & Hstr).
    + intros (_ & H). vm_compute in H. discriminate.
    + split; [vm_compute; reflexivity|exact Hstr].
Defined.
